(** * NYC air quality / asthma maps: the borough and ZIP3 pipelines

    A shallow embedding of [disp_borough_map.py] and [disp_zip3_map.py].

    Conventions of the embedding.
    - A pandas DataFrame is the list of its rows, a row is a record.
    - A numeric cell of an input frame is [option Qc]: an exact rational, or
      [None] for the missing value (NaN).  The IEEE special values that
      [/] can produce (NaN and the two infinities) are modelled, in the
      type [cell] of computed cells; binary64 rounding is not, except in
      the module [Binary64], which adds a float64 column as pandas does,
      row after row.
    - [print], [plt.savefig] and exceptions are the effects of the scripts;
      they are threaded through the monad [M]. *)

From Stdlib Require Import QArith Qcanon Qround ZArith List Permutation Sorted.
From Stdlib Require Import Structures.OrdersEx.
From Stdlib Require Floats.PrimFloat.
From stdpp Require Import base list strings gmap pretty.
Import ListNotations.

Local Open Scope Z_scope.

(** ** Numbers *)

(** A float cell of a computed frame: a finite number, an infinity or NaN.
    pandas treats NaN as the missing value; infinities are not missing. *)
Inductive cell : Type :=
  | Num (q : Qc)
  | PInf
  | NInf
  | NaN.

Definition isna (c : cell) : bool :=
  match c with NaN => true | _ => false end.

Definition of_option (o : option Qc) : cell :=
  match o with Some q => Num q | None => NaN end.

Definition Qc_eqb (a b : Qc) : bool := Qeq_bool a b.
Definition Qc_ltb (a b : Qc) : bool :=
  match (a ?= b)%Qc with Lt => true | _ => false end.

(** [a / b] on two finite floats, as numpy's true division computes it:
    a zero divisor gives NaN for [0 / 0] and a signed infinity otherwise;
    no exception is raised. *)
Definition truediv (a b : Qc) : cell :=
  if Qc_eqb b 0 then
    if Qc_eqb a 0 then NaN
    else if Qc_ltb 0 a then PInf else NInf
  else Num (a / b)%Qc.

(** [c * k] for a finite, strictly positive constant [k]. *)
Definition mul_pos (c : cell) (k : Qc) : cell :=
  match c with
  | Num q => Num (q * k)%Qc
  | PInf => PInf
  | NInf => NInf
  | NaN => NaN
  end.

Definition Qc_of_Z (z : Z) : Qc := Q2Qc (inject_Z z).

Definition nl : string := String (Ascii.ascii_of_nat 10) EmptyString.

(** Python's [int(x)] on a finite number: truncation towards zero. *)
Definition int (x : Qc) : Z := Z.quot (Qnum x) (Z.pos (Qden x)).

(** The exact sum of a column of finite numbers. *)
Fixpoint total (l : list Qc) : Qc :=
  match l with
  | [] => Q2Qc 0
  | x :: l' => (x + total l')%Qc
  end.

Definition Qc_of_nat (n : nat) : Qc := Qc_of_Z (Z.of_nat n).

(** pandas' ["mean"] of a column without missing values: NaN on the empty
    column, the exact average otherwise. *)
Definition mean (l : list Qc) : cell :=
  match l with
  | [] => NaN
  | _ :: _ => Num (total l / Qc_of_nat (length l))%Qc
  end.

(** The values of a column that are not missing ([skipna=True]). *)
Fixpoint dropna_values (l : list (option Qc)) : list Qc :=
  match l with
  | [] => []
  | Some q :: l' => q :: dropna_values l'
  | None :: l' => dropna_values l'
  end.

(** ** Frames: group keys, group-by and merges *)

Module Frame.

(** Keys are compared as Python compares [str]: code point by code point. *)
Definition key_lt (a b : string) : Prop := String_as_OT.lt a b.

Fixpoint insert_key (k : string) (ks : list string) : list string :=
  match ks with
  | [] => [k]
  | k' :: ks' =>
      match String_as_OT.compare k k' with
      | Lt => k :: ks
      | Eq => ks
      | Gt => k' :: insert_key k ks'
      end
  end.

(** The distinct values of a key column in ascending order: the group
    keys of [DataFrame.groupby] (its default is [sort=True]). *)
Fixpoint group_keys (ks : list string) : list string :=
  match ks with
  | [] => []
  | k :: ks' => insert_key k (group_keys ks')
  end.

Section GroupBy.
Context {A : Type} (key : A -> string).

Definition group (rows : list A) (k : string) : list A :=
  List.filter (fun r => String.eqb (key r) k) rows.

(** [df.groupby(key)]: each key with the rows of its group, in the
    order the rows have in [df]. *)
Definition groupby (rows : list A) : list (string * list A) :=
  List.map (fun k => (k, group rows k)) (group_keys (List.map key rows)).
End GroupBy.

Section Merge.
Context {A B K : Type} `{EqDecision K}.
Context (left_on : A -> K) (right_on : B -> K).

(** The right rows whose key equals the key of the left row [a]. *)
Definition matches (a : A) (right : list B) : list B :=
  List.filter (fun b => bool_decide (right_on b = left_on a)) right.

(** [left.merge(right, how="left")]: every left row, once per matching
    right row, and once with nulls when no right row matches. *)
Definition left_rows (right : list B) (a : A) : list (A * option B) :=
  match matches a right with
  | [] => [(a, None)]
  | bs => List.map (fun b => (a, Some b)) bs
  end.

Definition merge_left (left : list A) (right : list B)
  : list (A * option B) :=
  List.flat_map (left_rows right) left.

(** [pd.merge(left, right)], an inner join: every left row once per
    matching right row, in the order of the left rows. *)
Definition merge_inner (left : list A) (right : list B)
  : list (A * B) :=
  List.flat_map
    (fun a => List.map (fun b => (a, b)) (matches a right)) left.
End Merge.

End Frame.

(** ** Effects: console output, written files, exceptions *)

Inductive exn_kind : Type :=
  | FileNotFoundError
  | ValueError
  | KeyError
  | TypeError
  | AttributeError
  | OtherError.

Record exn := Exn { kind : exn_kind; message : string }.

(** What a run does to the outside: a line on the console, a frame shown
    on the console (its text is not modelled), polygons drawn with the
    given fill colours, and an image file written. *)
Inductive event : Type :=
  | Print (msg : string)
  | PrintFrame (name : string)
  | Draw (fills : list (option string))
  | SaveFig (path : string).

(** A computation emits events and then returns or raises. *)
Definition M (A : Type) : Type := list event * (exn + A).

#[global] Instance M_ret : MRet M := fun A a => ([], inr a).
#[global] Instance M_bind : MBind M := fun A B f m =>
  match m with
  | (out, inl e) => (out, inl e)
  | (out, inr a) => let (out', r) := f a in (out ++ out', r)
  end.

Definition raise {A} (e : exn) : M A := ([], inl e).
Definition print (msg : string) : M unit := ([Print msg], inr tt).
Definition print_frame (name : string) : M unit :=
  ([PrintFrame name], inr tt).
Definition draw (fills : list (option string)) : M unit :=
  ([Draw fills], inr tt).
Definition savefig (path : string) : M unit := ([SaveFig path], inr tt).

Definition events {A} (m : M A) : list event := fst m.
Definition outcome {A} (m : M A) : exn + A := snd m.
Definition returns {A} (m : M A) : Prop := exists a, outcome m = inr a.
Definition raises {A} (m : M A) : Prop := exists e, outcome m = inl e.

Definition is_savefig (e : event) : bool :=
  match e with SaveFig _ => true | _ => false end.

(** The files a computation wrote. *)
Definition written {A} (m : M A) : list event :=
  List.filter is_savefig (events m).

(** ** Quantile classification: [pd.qcut] *)

Module Qcut.

Fixpoint insert_sorted (x : Qc) (l : list Qc) : list Qc :=
  match l with
  | [] => [x]
  | y :: l' => if Qc_ltb y x then y :: insert_sorted x l' else x :: l
  end.

Definition sort_values (l : list Qc) : list Qc :=
  fold_right insert_sorted [] l.

Definition floor (x : Qc) : Z := Qfloor x.

(** [Series.quantile(p)] with the default linear interpolation, on the
    sorted values: position [(n - 1) * p] between its two neighbours. *)
Definition quantile (sorted : list Qc) (p : Qc) : Qc :=
  let n := length sorted in
  let h := (Qc_of_nat (n - 1) * p)%Qc in
  let lo := Z.to_nat (floor h) in
  let hi := Nat.min (lo + 1) (n - 1) in
  let a := nth lo sorted (Q2Qc 0) in
  let b := nth hi sorted (Q2Qc 0) in
  (a + (b - a) * (h - Qc_of_nat lo))%Qc.

(** The [q + 1] bin edges: the quantiles at [np.linspace(0, 1, q + 1)]. *)
Definition edges (x : list Qc) (q : nat) : list Qc :=
  let s := sort_values x in
  List.map (fun i => quantile s (Qc_of_nat i / Qc_of_nat q)%Qc)
    (seq 0 (q + 1)).

(** [algos.unique]: the distinct values in order of first appearance. *)
Fixpoint unique (l : list Qc) : list Qc :=
  match l with
  | [] => []
  | x :: l' => x :: List.filter (fun y => negb (Qc_eqb y x)) (unique l')
  end.

(** [duplicates="drop"]: repeated edges are removed instead of raising. *)
Definition drop_duplicates (bins : list Qc) : list Qc :=
  let unique_bins := unique bins in
  if (length unique_bins <? length bins)%nat
     && negb (length bins =? 2)%nat
  then unique_bins else bins.

(** [bins.searchsorted(v, side="left")], with [include_lowest]. *)
Definition bin_id (bins : list Qc) (v : Qc) : nat :=
  if Qc_eqb v (hd (Q2Qc 0) bins) then 1%nat
  else length (List.filter (fun b => Qc_ltb b v) bins).

(** The label of a value; a value outside every bin gets none. *)
Definition label (bins : list Qc) (v : Qc) : option nat :=
  let i := bin_id bins v in
  if (i =? 0)%nat || (i =? length bins)%nat then None
  else Some (i - 1)%nat.

Definition labels_error : exn :=
  Exn ValueError "Bin labels must be one fewer than the number of bin edges".

(** [pd.qcut(x, q, labels=range(q), duplicates="drop")] on a column of
    finite numbers: the [q] labels must match the number of bins that are
    left once repeated edges are dropped. *)
Definition qcut_finite (x : list Qc) (q : nat) : exn + list (option nat) :=
  let bins := drop_duplicates (edges x q) in
  if (q =? length bins - 1)%nat
  then inr (List.map (label bins) x)
  else inl labels_error.

Fixpoint finite_values (x : list cell) : option (list Qc) :=
  match x with
  | [] => Some []
  | Num v :: x' =>
      match finite_values x' with
      | Some vs => Some (v :: vs)
      | None => None
      end
  | _ :: _ => None
  end.

Section WithNonFinite.
(** [pd.qcut] on a column that holds an infinity: its edges come from
    numpy's interpolation of infinities, which the scripts do not fix;
    it is a parameter of the development. *)
Variable qcut_nonfinite : list cell -> nat -> exn + list (option nat).

Definition qcut (x : list cell) (q : nat) : exn + list (option nat) :=
  match finite_values x with
  | Some vs => qcut_finite vs q
  | None => qcut_nonfinite x q
  end.
End WithNonFinite.

End Qcut.

(** ** The two renderers

    Both scripts carry the same [plot_choropleth] and [plot_bivariate_map];
    they differ in the merged frame they draw and in the number of
    quantiles.  A merged frame is a list of rows of type [R]; [column]
    resolves the name of a metric column ([None] when the frame has no
    such numeric column, where pandas raises). *)

Module Render.
Section Renderers.
Context {R : Type}.
Variable column : string -> option (R -> cell).
Variable n_quantiles : nat.
Variable qcut_nonfinite : list cell -> nat -> exn + list (option nat).

Definition no_column (name : string) : exn := Exn KeyError name.

(** The colour map and the legend label are left out.  The drawing itself
    is taken to succeed; geopandas fails on a column it cannot scale (the
    object column of a frame without rows), which is not modelled. *)
Definition plot_choropleth (gdf : list R)
  (col title output_path : string) : M unit :=
  print ("Generating choropleth map for '" +:+ col +:+ "'...") ;;
  match column col with
  | None => raise (no_column col)
  | Some _ =>
    savefig output_path ;;
    print ("Saved map to " +:+ output_path)
  end.

(** [gdf.dropna(subset=[var1_col, var2_col])] *)
Definition dropna (c1 c2 : R -> cell) (gdf : list R) : list R :=
  List.filter (fun r => negb (isna (c1 r)) && negb (isna (c2 r))) gdf.

(** The label of a row as [astype(str)] prints it. *)
Definition label_str (l : option nat) : string :=
  match l with Some i => pretty i | None => "nan" end.

Definition bivariate_class (l1 l2 : list (option nat)) : list string :=
  List.map (fun '(a, b) => label_str a +:+ "-" +:+ label_str b)
  (List.combine l1 l2).

(** A polygon whose class is not in the colour table gets NaN as colour. *)
Definition has_color (fill : option string) : bool :=
  match fill with Some _ => true | None => false end.

(** What matplotlib raises on a colour that is NaN. *)
Definition invalid_color : exn :=
  Exn ValueError "Invalid RGBA argument: nan".

(** The [try] block: both classifications, the first failure wins. *)
Definition classify (c1 c2 : R -> cell) (rows : list R)
  : exn + (list (option nat) * list (option nat)) :=
  match Qcut.qcut qcut_nonfinite (List.map c1 rows) n_quantiles with
  | inl e => inl e
  | inr q1 =>
    match Qcut.qcut qcut_nonfinite (List.map c2 rows) n_quantiles with
    | inl e => inl e
    | inr q2 => inr (q1, q2)
    end
  end.

Definition plot_bivariate_map (gdf : list R)
  (var1_col var2_col var1_label var2_label : string)
  (colors : gmap string string) (title output_path : string) : M unit :=
  print ("--- Starting Bivariate Choropleth ( " +:+ var1_label +:+ " vs "
       +:+ var2_label +:+ " ) ---") ;;
  match column var1_col, column var2_col with
  | Some c1, Some c2 =>
    let bivariate_gdf := dropna c1 c2 gdf in
    match bivariate_gdf with
    | [] => print ("No data to plot for " +:+ title +:+ ". Skipping.")
    | _ :: _ =>
      match classify c1 c2 bivariate_gdf with
      | inl e =>
          match kind e with
          | ValueError =>
              print ("Could not classify data for bivariate map '"
                     +:+ title +:+ "'. Error: " +:+ message e
                     +:+ ". Skipping.")
          | _ => raise e
          end
      | inr (var1_quantiles, var2_quantiles) =>
          let color :=
            List.map (fun c => colors !! c)
              (bivariate_class var1_quantiles var2_quantiles) in
          if forallb has_color color then
            draw color ;;
            savefig output_path ;;
            print ("Saved map to " +:+ output_path)
          else raise invalid_color
      end
    end
  | None, _ => raise (no_column var1_col)
  | _, None => raise (no_column var2_col)
  end.
End Renderers.
End Render.

(** ** The borough pipeline: [disp_borough_map.py] *)

Module Borough.

Definition geojson_borough_file : string := "resources/boroughs.geojson".
Definition output_dir : string := "output".
Definition n_quantiles : nat := 2.
Definition FINAL_DATASET_CSV : string := "final_dataset.csv".

Definition bivariate_colors : gmap string string :=
  list_to_map
    [("0-0", "#e8e8e8"); ("0-1", "#b0d5df");
     ("1-0", "#e4acac"); ("1-1", "#ad9ea5")].

Definition get_borough_from_uhf (uhf : Qc) : string :=
  let uhf := int uhf in
  if (101 <=? uhf) && (uhf <=? 107) then "Bronx"
  else if (201 <=? uhf) && (uhf <=? 211) then "Brooklyn"
  else if (301 <=? uhf) && (uhf <=? 310) then "Manhattan"
  else if (401 <=? uhf) && (uhf <=? 410) then "Queens"
  else if (501 <=? uhf) && (uhf <=? 504) then "Staten Island"
  else "Unknown".

(** A row of [final_dataset.csv] as [pd.read_csv] returns it. *)
Record csv_row := {
  csv_UHF42 : option Qc;
  csv_Population : option Qc;
  csv_NO2 : option Qc;
  csv_O3 : option Qc;
  csv_Asthma_Count : option Qc
}.

(** A row of [df] once it is cleaned and its borough is known. *)
Record row := {
  UHF42 : Qc;
  Population : Qc;
  NO2 : Qc;
  O3 : Qc;
  Asthma_Count : Qc;
  Borough : string
}.

Definition fillna (o : option Qc) (v : Qc) : Qc := default v o.

(** [fillna(0)] on the asthma count, [dropna] on the four other columns
    (a row with one of them missing is dropped), then the borough. *)
Definition clean (r : csv_row) : option row :=
  let asthma_count := fillna (csv_Asthma_Count r) (Q2Qc 0) in
  uhf ← csv_UHF42 r;
  population ← csv_Population r;
  no2 ← csv_NO2 r;
  o3 ← csv_O3 r;
  Some {| UHF42 := uhf; Population := population; NO2 := no2; O3 := o3;
          Asthma_Count := asthma_count;
          Borough := get_borough_from_uhf uhf |}.

Definition known (r : row) : bool :=
  negb (String.eqb (Borough r) "Unknown").

(** [df] as it enters the group-by. *)
Definition cleaned (df : list csv_row) : list row :=
  List.filter known (omap clean df).

(** A row of [borough_summary]; [borough] is its column [Borough]. *)
Record summary := {
  borough : string;
  NO2_avg : cell;
  O3_avg : cell;
  Population_sum : Qc;
  Asthma_Count_sum : Qc;
  asthma_rate : cell
}.

Definition asthma_rate_of (asthma_count_sum population_sum : Qc) : cell :=
  mul_pos (truediv asthma_count_sum population_sum) (Qc_of_Z 10000).

Definition agg (g : string * list row) : summary :=
  let population_sum := total (List.map Population g.2) in
  let asthma_count_sum := total (List.map Asthma_Count g.2) in
  {| borough := g.1;
     NO2_avg := mean (List.map NO2 g.2);
     O3_avg := mean (List.map O3 g.2);
     Population_sum := population_sum;
     Asthma_Count_sum := asthma_count_sum;
     asthma_rate := asthma_rate_of asthma_count_sum population_sum |}.

Definition borough_summary (df : list csv_row) : list summary :=
  List.map agg (Frame.groupby Borough (cleaned df)).

(** [csv] is what is found at [csv_path]: [None] when there is no file. *)
Definition prepare_borough_data (csv_path : string)
    (csv : option (list csv_row)) : M (list summary) :=
  print "--- Preparing Borough Data ---" ;;
  match csv with
  | None =>
      raise (Exn FileNotFoundError
               ("Dataset not found at " +:+ csv_path
                +:+ ". Please run the main notebook to generate it."))
  | Some df =>
      let borough_summary := borough_summary df in
      print "Borough data preparation complete." ;;
      print_frame "borough_summary" ;;
      mret borough_summary
  end.

(** A feature of the boundary file. *)
Record feature := { name : string; geometry : list (Z * Z) }.

Definition merged_row : Type := feature * option summary.

(** [geojson] is what [gpd.read_file] does: it raises or gives features.
    A collection without feature is a frame without the column [name]: the
    merge, which is outside the [try], raises KeyError on it. *)
Definition prepare_geospatial_data (geojson_path : string)
    (geojson : exn + list feature) (data_df : list summary)
  : M (option (list merged_row)) :=
  print (nl +:+ "--- Preparing Geospatial Data for Boroughs ---") ;;
  match geojson with
  | inl e =>
      print ("Could not load geospatial data from " +:+ geojson_path
             +:+ ". Error: " +:+ message e) ;;
      mret None
  | inr [] => raise (Exn KeyError "name")
  | inr borough_gdf =>
      mret (Some (Frame.merge_left name borough borough_gdf data_df))
  end.

Definition metric (f : summary -> cell) (r : merged_row) : cell :=
  match r.2 with Some s => f s | None => NaN end.

(** The numeric columns of the merged frame. *)
Definition column (c : string) : option (merged_row -> cell) :=
  if String.eqb c "NO2_avg" then Some (metric NO2_avg)
  else if String.eqb c "O3_avg" then Some (metric O3_avg)
  else if String.eqb c "Population_sum"
    then Some (metric (fun s => Num (Population_sum s)))
  else if String.eqb c "Asthma_Count_sum"
    then Some (metric (fun s => Num (Asthma_Count_sum s)))
  else if String.eqb c "asthma_rate" then Some (metric asthma_rate)
  else None.

Section Main.
Variable qcut_nonfinite : list cell -> nat -> exn + list (option nat).

Definition plot_choropleth := Render.plot_choropleth column.

Definition plot_bivariate_map :=
  Render.plot_bivariate_map column n_quantiles qcut_nonfinite.

Definition join (dir file : string) : string := dir +:+ "/" +:+ file.

Definition main (csv : option (list csv_row))
    (geojson : exn + list feature) : M unit :=
  borough_data ← prepare_borough_data FINAL_DATASET_CSV csv;
  map_gdf ← prepare_geospatial_data geojson_borough_file geojson
              borough_data;
  match map_gdf with
  | None => print "Exiting due to geospatial data loading failure."
  | Some map_gdf =>
      plot_choropleth map_gdf "asthma_rate" "Asthma Rate by Borough"
        (join output_dir "map_borough_asthma_rate.png") ;;
      plot_choropleth map_gdf "NO2_avg" "Average NO2 Levels by Borough"
        (join output_dir "map_borough_no2.png") ;;
      plot_choropleth map_gdf "O3_avg" "Average O3 Levels by Borough"
        (join output_dir "map_borough_o3.png") ;;
      plot_bivariate_map map_gdf "asthma_rate" "NO2_avg"
        "Asthma Rate" "NO2" bivariate_colors
        "Bivariate Map: Asthma Rate vs. NO2 Levels"
        (join output_dir "map_borough_bivariate_asthma_no2.png") ;;
      plot_bivariate_map map_gdf "asthma_rate" "O3_avg"
        "Asthma Rate" "O3" bivariate_colors
        "Bivariate Map: Asthma Rate vs. O3 Levels"
        (join output_dir "map_borough_bivariate_asthma_o3.png") ;;
      print (nl +:+ "All borough visualizations complete.")
  end.
End Main.

End Borough.

(** ** The ZIP3 pipeline: [disp_zip3_map.py] *)

Module Zip3.

Definition GEOJSON_LOCAL_FILE : string :=
  "resources/nyc-zip-code-tabulation-areas-polygons.geojson".
Definition OUTPUT_DIR : string := "output".
Definition ASTHMA_PKL : string := "asthma_pd.pkl".
Definition FINAL_DF_PKL : string := "final_df.pkl".
Definition N_QUANTILES : nat := 3.

(** The rows of the literal table [UHF_TO_ZIP3_MAP_DATA] as [pd.read_csv]
    parses them: two integer columns, [UHF42] and [zip3]. *)
Definition UHF_TO_ZIP3_MAP_DATA : list (Z * Z) :=
  [(101, 104); (102, 104); (103, 104); (104, 104); (105, 104); (106, 104);
   (107, 104); (201, 112); (202, 111); (203, 111); (204, 112); (205, 112);
   (206, 111); (207, 111); (208, 112); (209, 111); (210, 111); (211, 112);
   (301, 100); (302, 100); (303, 100); (304, 100); (305, 101); (306, 100);
   (307, 100); (308, 100); (309, 100); (310, 102); (401, 111); (402, 113);
   (403, 113); (404, 113); (405, 113); (406, 113); (407, 114); (408, 114);
   (409, 110); (410, 116); (501, 103); (502, 103); (503, 103); (504, 103)].

Definition BIVARIATE_COLORS : gmap string string :=
  list_to_map
    [("0-0", "#e8e8e8"); ("0-1", "#b0d5df"); ("0-2", "#64acbe");
     ("1-0", "#e4acac"); ("1-1", "#ad9ea5"); ("1-2", "#627f8c");
     ("2-0", "#c85a5a"); ("2-1", "#985356"); ("2-2", "#574249")].

(** A row of [final_df]: one UHF42 district. *)
Record uhf_row := {
  UHF42 : Z;
  NO2 : option Qc;
  O3 : option Qc;
  Population : option Qc
}.

(** A row of [asthma_pd]: one ZIP3 area. *)
Record asthma_row := { asthma_zip3 : string; Asthma_Count : option Qc }.

(** A row of [zip3_map] after [astype(str)]. *)
Record map_row := { map_UHF42 : Z; map_zip3 : string }.

(** [zip3_map["zip3"].astype(str)]: the decimal text of the integer. *)
Definition astype_str (m : Z * Z) : map_row :=
  {| map_UHF42 := m.1; map_zip3 := pretty m.2 |}.

(** A row of [aggregated_uhf_data]. *)
Record summary := {
  zip3 : string;
  NO2_avg : cell;
  O3_avg : cell;
  Population_sum : Qc
}.

Definition uhf_data_with_zip3 (final_df : list uhf_row)
    (zip3_map : list (Z * Z)) : list (uhf_row * map_row) :=
  Frame.merge_inner UHF42 map_UHF42 final_df (List.map astype_str zip3_map).

(** [mean] and [sum] skip the missing values of a column. *)
Definition agg (g : string * list (uhf_row * map_row)) : summary :=
  let rows := List.map fst g.2 in
  {| zip3 := g.1;
     NO2_avg := mean (dropna_values (List.map NO2 rows));
     O3_avg := mean (dropna_values (List.map O3 rows));
     Population_sum := total (dropna_values (List.map Population rows)) |}.

Definition aggregated_uhf_data (final_df : list uhf_row)
    (zip3_map : list (Z * Z)) : list summary :=
  List.map agg
    (Frame.groupby (fun r => map_zip3 r.2)
       (uhf_data_with_zip3 final_df zip3_map)).

Definition geo_row : Type := asthma_row * option summary.

Definition geo_df (asthma_pd : list asthma_row) (final_df : list uhf_row)
    (zip3_map : list (Z * Z)) : list geo_row :=
  Frame.merge_left asthma_zip3 zip3 asthma_pd
    (aggregated_uhf_data final_df zip3_map).

Definition no_file (path : string) : exn :=
  Exn FileNotFoundError ("No such file or directory: '" +:+ path +:+ "'").

(** [pickle.load] of the file at [path]; [None] when there is no file. *)
Definition load {A} (path : string) (pkl : option A) : M A :=
  match pkl with
  | Some v => mret v
  | None => raise (no_file path)
  end.

(** [zip3_map] is the frame [pd.read_csv] gives for [uhf_zip_map_csv]. *)
Definition prepare_data (asthma_path final_df_path : string)
    (asthma_pkl : option (list asthma_row))
    (final_pkl : option (list uhf_row))
    (zip3_map : list (Z * Z)) : M (list geo_row) :=
  print "--- Preparing Data ---" ;;
  asthma_pd ← load asthma_path asthma_pkl;
  final_df ← load final_df_path final_pkl;
  let geo_df := geo_df asthma_pd final_df zip3_map in
  print (nl +:+ "Data preparation complete.") ;;
  mret geo_df.

(** A feature of the ZCTA boundary file. *)
Record feature := { postalCode : string; geometry : list (Z * Z) }.

(** [postalCode.str[:3]] *)
Definition feature_zip3 (f : feature) : string :=
  String.substring 0 3 (postalCode f).

Definition merged_row : Type := feature * option geo_row.

Definition merged_gdf (nyc_zcta_gdf : list feature)
    (data_df : list geo_row) : list merged_row :=
  Frame.merge_left feature_zip3 (fun g : geo_row => asthma_zip3 g.1)
    nyc_zcta_gdf data_df.

(** A collection without feature is a frame without the column
    [postalCode]: taking that column, outside the [try], raises KeyError. *)
Definition prepare_geospatial_data (geojson_path : string)
    (geojson : exn + list feature) (data_df : list geo_row)
  : M (option (list merged_row)) :=
  print (nl +:+ "--- Preparing Geospatial Data ---") ;;
  match geojson with
  | inl e =>
      print ("Could not load geospatial data from " +:+ geojson_path
             +:+ ". Error: " +:+ message e) ;;
      mret None
  | inr nyc_zcta_gdf =>
      print "Creating ZIP3 boundaries..." ;;
      match nyc_zcta_gdf with
      | [] => raise (Exn KeyError "postalCode")
      | _ :: _ => mret (Some (merged_gdf nyc_zcta_gdf data_df))
      end
  end.

Definition asthma_metric (r : merged_row) : cell :=
  match r.2 with Some g => of_option (Asthma_Count g.1) | None => NaN end.

Definition metric (f : summary -> cell) (r : merged_row) : cell :=
  match r.2 with
  | Some (_, Some s) => f s
  | _ => NaN
  end.

(** The numeric columns of the merged frame. *)
Definition column (c : string) : option (merged_row -> cell) :=
  if String.eqb c "Asthma_Count" then Some asthma_metric
  else if String.eqb c "NO2_avg" then Some (metric NO2_avg)
  else if String.eqb c "O3_avg" then Some (metric O3_avg)
  else if String.eqb c "Population_sum"
    then Some (metric (fun s => Num (Population_sum s)))
  else None.

(** Calling a method of [map_gdf]: on [None] Python raises
    AttributeError. *)
Definition none_error (what : string) : exn :=
  Exn AttributeError
    ("'NoneType' object has no attribute '" +:+ what +:+ "'").

Definition use {A} (what : string) (o : option A) : M A :=
  match o with
  | Some v => mret v
  | None => raise (none_error what)
  end.

(** Subscripting [map_gdf]: on [None] Python raises TypeError. *)
Definition item {A} (o : option A) : M A :=
  match o with
  | Some v => mret v
  | None => raise (Exn TypeError "'NoneType' object is not subscriptable")
  end.

(** [drop_duplicates(subset=["zip3"])]: the first row of every key. *)
Fixpoint drop_duplicates (gdf : list merged_row) : list merged_row :=
  match gdf with
  | [] => []
  | r :: gdf' =>
      r :: List.filter
             (fun r' => negb (String.eqb (feature_zip3 r'.1)
                                         (feature_zip3 r.1)))
             (drop_duplicates gdf')
  end.

Section Main.
Variable qcut_nonfinite : list cell -> nat -> exn + list (option nat).
(** [path] is the working directory, [os.getcwd()]. *)
Variable path : string.

Definition plot_choropleth := Render.plot_choropleth column.

Definition plot_bivariate_map :=
  Render.plot_bivariate_map column N_QUANTILES qcut_nonfinite.

Definition join (dir file : string) : string := dir +:+ "/" +:+ file.

Definition GEOJSON_LOCAL_PATH : string := join path GEOJSON_LOCAL_FILE.

Definition main (asthma_pkl : option (list asthma_row))
    (final_pkl : option (list uhf_row))
    (geojson : exn + list feature) : M unit :=
  geo_df ← prepare_data ASTHMA_PKL FINAL_DF_PKL asthma_pkl final_pkl
             UHF_TO_ZIP3_MAP_DATA;
  print (nl +:+ "--- DEBUG: Inspecting aggregated data in geo_df ---") ;;
  print_frame "geo_df" ;;
  print "end" ;;
  map_gdf ← prepare_geospatial_data GEOJSON_LOCAL_PATH geojson geo_df;
  gdf ← use "drop_duplicates" map_gdf;
  let bivariate_df := drop_duplicates gdf in
  print (nl +:+ "--- DEBUG: Inspecting aggregated data in geo_df ---") ;;
  use "describe" map_gdf ;;
  print_frame "map_gdf.describe()" ;;
  print "O3_avg NaN or 0:" ;;
  item map_gdf ;;
  print_frame "map_gdf[map_gdf.O3_avg == 0]" ;;
  use "groupby" map_gdf ;;
  print_frame "unique" ;;
  print "end of DEBUG" ;;
  match map_gdf with
  | None => print "Exiting due to geospatial data loading failure."
  | Some map_gdf =>
      plot_choropleth map_gdf "Asthma_Count"
        "Total Asthma Hospitalizations by ZIP3"
        (join OUTPUT_DIR "map_zip3_asthma_count.png") ;;
      plot_choropleth map_gdf "NO2_avg" "Average NO2 Levels by ZIP3"
        (join OUTPUT_DIR "map_zip3_no2.png") ;;
      plot_choropleth map_gdf "O3_avg" "Average O3 Levels by ZIP3"
        (join OUTPUT_DIR "map_zip3_o3.png") ;;
      plot_bivariate_map map_gdf "Asthma_Count" "NO2_avg"
        "Asthma" "NO2" BIVARIATE_COLORS
        "Asthma Hospitalizations vs. NO2 Levels by ZIP3"
        (join OUTPUT_DIR "map_zip3_bivariate_asthma_no2.png") ;;
      plot_bivariate_map map_gdf "Asthma_Count" "O3_avg"
        "Asthma" "O3" BIVARIATE_COLORS
        "Asthma Hospitalizations vs. O3 Levels by ZIP3"
        (join OUTPUT_DIR "map_zip3_bivariate_asthma_o3.png") ;;
      print (nl +:+ "All visualizations complete.")
  end.
End Main.

End Zip3.

(** ** Columns of binary64 numbers

    The aggregates above are taken over exact rationals.  The columns that
    pandas reads from the CSV file and from the pickles hold binary64
    numbers, and the [mean] and the [sum] of a group add its values in row
    order, every operation rounded to binary64. *)

Module Binary64.
Import PrimFloat.

(** One step of the compensated summation of the group-by kernels. *)
Definition kahan_step (acc : float * float) (val : float) : float * float :=
  let '(sumx, compensation) := acc in
  let y := (val - compensation)%float in
  let t := (sumx + y)%float in
  (t, ((t - sumx) - y)%float).

Definition group_sum (values : list float) : float :=
  fst (fold_left kahan_step values (0%float, 0%float)).

Definition nobs (values : list float) : float :=
  fold_left (fun n _ => (n + 1)%float) values 0%float.

Definition group_mean (values : list float) : float :=
  (group_sum values / nobs values)%float.



(** The [NO2] values of the records of the borough [b], in row order; a
    record is its UHF42 code and its NO2 level. *)
Definition NO2_of (df : list (Z * float)) (b : string) : list float :=
  List.map snd
    (List.filter
       (fun r : Z * float =>
          String.eqb (Borough.get_borough_from_uhf (Qc_of_Z r.1)) b) df).

(** [NO2_avg=("NO2", "mean")] of the group [b]. *)
Definition NO2_avg (df : list (Z * float)) (b : string) : float :=
  group_mean (NO2_of df b).




End Binary64.

(** * Vocabulary of the statements *)

(** The record [c] with its asthma count replaced. *)
Definition with_asthma (c : Borough.csv_row) (a : option Qc)
  : Borough.csv_row :=
  {| Borough.csv_UHF42 := Borough.csv_UHF42 c;
     Borough.csv_Population := Borough.csv_Population c;
     Borough.csv_NO2 := Borough.csv_NO2 c;
     Borough.csv_O3 := Borough.csv_O3 c;
     Borough.csv_Asthma_Count := a |}.

(** The merged frame [m] is the left join of [left] with [right] on the
    given keys: its matched rows are exactly the pairs of a left row and a
    right row with the same key, its rows with nulls are exactly the left
    rows without such a right row, and the left rows come out in their
    order, each once per right row with its key and once when there is
    none. *)
Definition left_join_of {A B K : Type} `{EqDecision K}
    (left_on : A -> K) (right_on : B -> K)
    (left : list A) (right : list B) (m : list (A * option B)) : Prop :=
  (forall a b, In (a, Some b) m <->
               In a left /\ In b right /\ right_on b = left_on a) /\
  (forall a, In (a, None) m <->
             In a left /\ forall b, In b right -> right_on b <> left_on a) /\
  List.map fst m
  = List.flat_map
      (fun a =>
         repeat a (Nat.max 1 (length (Frame.matches left_on right_on a right))))
      left.

(** The metric columns that the borough merge adds to a polygon. *)
Definition borough_metrics : list string :=
  ["NO2_avg"; "O3_avg"; "Population_sum"; "Asthma_Count_sum"; "asthma_rate"].

(** The metric columns that the ZIP3 merge adds to a polygon. *)
Definition zip3_metrics : list string :=
  ["Asthma_Count"; "NO2_avg"; "O3_avg"; "Population_sum"].

(** Every row of the merged frame [m] that belongs to the polygon [f] is
    null in each of the listed columns. *)
Definition null_metrics {F D : Type}
    (column : string -> option (F * option D -> cell))
    (metrics : list string) (m : list (F * option D)) (f : F) : Prop :=
  forall r, In r m -> r.1 = f ->
    r.2 = None /\
    forall c, In c metrics ->
      exists col, column c = Some col /\ col r = NaN /\ isna (col r) = true.




(** The UHF42 records that are aggregated into the ZIP3 group [k], each as
    often as it was joined to [k]. *)
Definition group_records (final_df : list Zip3.uhf_row)
    (zip3_map : list (Z * Z)) (k : string) : list Zip3.uhf_row :=
  List.map fst
    (Frame.group (fun r : Zip3.uhf_row * Zip3.map_row => Zip3.map_zip3 r.2)
       (Zip3.uhf_data_with_zip3 final_df zip3_map) k).

(** How many rows of the mapping table send the code [uhf] to the key [k]. *)
Definition links (zip3_map : list (Z * Z)) (uhf : Z) (k : string) : nat :=
  length (List.filter
            (fun m : Z * Z => bool_decide (m.1 = uhf) && String.eqb (pretty m.2) k)
            zip3_map).

(** The test [len(unique_bins) < len(bins)] of [pd.qcut]. *)
Definition has_duplicates (bins : list Qc) : bool :=
  (length (Qcut.unique bins) <? length bins)%nat.

(** A column is finite when it holds neither NaN nor an infinity. *)
Definition all_finite (col : list cell) : bool :=
  match Qcut.finite_values col with Some _ => true | None => false end.

(** The quantile edges of a finite column repeat a value. *)
Definition duplicate_edges (col : list cell) (q : nat) : bool :=
  match Qcut.finite_values col with
  | Some x => has_duplicates (Qcut.edges x q)
  | None => false
  end.

Definition start_notice (var1_label var2_label : string) : event :=
  Print ("--- Starting Bivariate Choropleth ( " +:+ var1_label +:+ " vs "
         +:+ var2_label +:+ " ) ---").

Definition no_data_notice (title : string) : event :=
  Print ("No data to plot for " +:+ title +:+ ". Skipping.").

Definition skip_notice (title : string) (e : exn) : event :=
  Print ("Could not classify data for bivariate map '" +:+ title
         +:+ "'. Error: " +:+ message e +:+ ". Skipping.").

(** The five boroughs in the order of Python's string comparison. *)
Definition borough_names : list string :=
  ["Bronx"; "Brooklyn"; "Manhattan"; "Queens"; "Staten Island"].

(** Some cleaned record lies in the borough [b]. *)
Definition has_records (df : list Borough.csv_row) (b : string) : bool :=
  existsb (fun r => String.eqb (Borough.Borough r) b) (Borough.cleaned df).

(** A cell that is not an infinity. *)
Definition no_infinity (c : cell) : bool :=
  match c with PInf | NInf => false | _ => true end.

(** The merged frame the borough [main] draws. *)
Definition borough_frame (df : list Borough.csv_row)
    (boroughs : list Borough.feature) : list Borough.merged_row :=
  Frame.merge_left Borough.name Borough.borough boroughs
    (Borough.borough_summary df).

(** How many rows of [geo_df] carry the ZIP3 key of the polygon [f]. *)
Definition matching_rows (geo_df : list Zip3.geo_row) (f : Zip3.feature)
  : nat :=
  length (Frame.matches Zip3.feature_zip3
            (fun g : Zip3.geo_row => Zip3.asthma_zip3 g.1) f geo_df).

(** The mapping table lists the UHF42 code of the record [r]. *)
Definition listed (zip3_map : list (Z * Z)) (r : Zip3.uhf_row) : bool :=
  existsb (fun m : Z * Z => Z.eqb m.1 (Zip3.UHF42 r)) zip3_map.

(** The colour table has an entry for every pair of labels below [n]. *)
Definition covers (n : nat) (colors : gmap string string) : Prop :=
  forall i j, (i < n)%nat -> (j < n)%nat ->
    is_Some (colors !! (Render.label_str (Some i) +:+ "-"
                        +:+ Render.label_str (Some j))).

(** * Sample inputs *)

Definition csv (uhf population no2 o3 : Z) (asthma : option Z)
  : Borough.csv_row :=
  {| Borough.csv_UHF42 := Some (Qc_of_Z uhf);
     Borough.csv_Population := Some (Qc_of_Z population);
     Borough.csv_NO2 := Some (Qc_of_Z no2);
     Borough.csv_O3 := Some (Qc_of_Z o3);
     Borough.csv_Asthma_Count := option_map Qc_of_Z asthma |}.

(** Two Bronx districts, and one district of Staten Island without
    residents but with five asthma cases. *)
Definition sample_csv : list Borough.csv_row :=
  [csv 101 10 3 4 (Some 2); csv 102 30 4 4 None; csv 502 0 3 4 (Some 5)].

Definition default_summary : Borough.summary :=
  {| Borough.borough := ""; Borough.NO2_avg := NaN; Borough.O3_avg := NaN;
     Borough.Population_sum := Q2Qc 0; Borough.Asthma_Count_sum := Q2Qc 0;
     Borough.asthma_rate := NaN |}.

Definition sample_bronx : Borough.summary :=
  nth 0 (Borough.borough_summary sample_csv) default_summary.

Definition sample_staten_island : Borough.summary :=
  nth 1 (Borough.borough_summary sample_csv) default_summary.

(** A stand-in for [pd.qcut] on columns with an infinity. *)
Definition qcut_nonfinite_fails (x : list cell) (q : nat)
  : exn + list (option nat) :=
  inl (Exn OtherError "non-finite column").

Definition five_boroughs : list Borough.feature :=
  List.map (fun n => {| Borough.name := n; Borough.geometry := [] |})
    ["Bronx"; "Brooklyn"; "Manhattan"; "Queens"; "Staten Island"].

(** One district per borough, 10000 residents each; the asthma rates per
    10000 residents come out as 1, 1, 1, 1 and 2. *)
Definition skewed_csv : list Borough.csv_row :=
  [csv 101 10000 1 5 (Some 1); csv 201 10000 2 4 (Some 1);
   csv 301 10000 3 3 (Some 1); csv 401 10000 4 2 (Some 1);
   csv 501 10000 5 1 (Some 2)].

Definition skewed_gdf : list Borough.merged_row :=
  Frame.merge_left Borough.name Borough.borough five_boroughs
    (Borough.borough_summary skewed_csv).

(** The boroughs merged with an empty summary: every metric is null. *)
Definition empty_gdf : list Borough.merged_row :=
  Frame.merge_left Borough.name Borough.borough five_boroughs [].

Definition uhf (code no2 o3 population : Z) : Zip3.uhf_row :=
  {| Zip3.UHF42 := code; Zip3.NO2 := Some (Qc_of_Z no2);
     Zip3.O3 := Some (Qc_of_Z o3);
     Zip3.Population := Some (Qc_of_Z population) |}.

Definition sample_final_df : list Zip3.uhf_row :=
  [uhf 101 20 30 1000; uhf 305 22 28 3000; uhf 102 24 26 2000].

(** A mapping table that sends the code 101 to two ZIP3 codes. *)
Definition fan_out_map : list (Z * Z) := [(101, 104); (305, 101); (101, 100)].

Definition sample_asthma_pd : list Zip3.asthma_row :=
  [{| Zip3.asthma_zip3 := "104"; Zip3.Asthma_Count := Some (Qc_of_Z 7) |}].

Definition sample_zcta : Zip3.feature :=
  {| Zip3.postalCode := "10451"; Zip3.geometry := [] |}.

(** The asthma counts of two years for the same ZIP3 area. *)
Definition two_year_asthma_pd : list Zip3.asthma_row :=
  [{| Zip3.asthma_zip3 := "104"; Zip3.Asthma_Count := Some (Qc_of_Z 7) |};
   {| Zip3.asthma_zip3 := "104"; Zip3.Asthma_Count := Some (Qc_of_Z 9) |}].

(** A polygon with a postal code of two characters, and an asthma row
    with that key. *)
Definition short_zcta : Zip3.feature :=
  {| Zip3.postalCode := "10"; Zip3.geometry := [] |}.

Definition short_asthma_pd : list Zip3.asthma_row :=
  [{| Zip3.asthma_zip3 := "10"; Zip3.Asthma_Count := Some (Qc_of_Z 7) |}].

Definition empty_zgdf : list Zip3.merged_row :=
  Frame.merge_left Zip3.feature_zip3
    (fun g : Zip3.geo_row => Zip3.asthma_zip3 g.1) [sample_zcta] [].

Definition default_zip3_summary : Zip3.summary :=
  {| Zip3.zip3 := ""; Zip3.NO2_avg := NaN; Zip3.O3_avg := NaN;
     Zip3.Population_sum := Q2Qc 0 |}.

(** The row of the key 104 in the aggregate of the sample (the other
    row has the key 101). *)
Definition sample_zip3_104 : Zip3.summary :=
  nth 1 (Zip3.aggregated_uhf_data sample_final_df Zip3.UHF_TO_ZIP3_MAP_DATA)
    default_zip3_summary.

(** One district per borough with asthma rates 1 to 5 per 10000 residents
    and NO2 levels 5 down to 1. *)
Definition varied_csv : list Borough.csv_row :=
  [csv 101 10000 5 1 (Some 1); csv 201 10000 4 2 (Some 2);
   csv 301 10000 3 3 (Some 3); csv 401 10000 2 4 (Some 4);
   csv 501 10000 1 5 (Some 5)].

Definition varied_gdf : list Borough.merged_row :=
  borough_frame varied_csv five_boroughs.

(** A UHF42 record with a code outside the mapping table. *)
Definition unlisted_record : Zip3.uhf_row := uhf 999 20 30 1000.

(** A dataset with a single usable district: only the Bronx is matched. *)
Definition single_gdf : list Borough.merged_row :=
  borough_frame [csv 101 10 3 4 (Some 2)] five_boroughs.

(** The asthma rate of that district. *)
Definition single_rate : Qc :=
  match Borough.metric Borough.asthma_rate
          (nth 0 single_gdf
             ({| Borough.name := ""; Borough.geometry := [] |}, None)) with
  | Num q => q
  | _ => Q2Qc 0
  end.

(** 107.5 as a code. *)
Definition code_107_5 : Qc := Q2Qc (215 # 2).

(** * Properties *)

(** ** Numbers *)

Lemma Qc_eqb_eq (a b : Qc) : Qc_eqb a b = true <-> a = b.
Proof.
  unfold Qc_eqb. rewrite Qeq_bool_iff. split.
  - apply Qc_is_canon.
  - intros ->. reflexivity.
Qed.

Lemma Qc_ltb_lt (a b : Qc) : Qc_ltb a b = true <-> (a < b)%Qc.
Proof.
  unfold Qc_ltb, Qclt. rewrite Qlt_alt. unfold Qccompare.
  destruct (a ?= b)%Q; split; intros H; try discriminate; reflexivity.
Qed.

Lemma int_of_Z (z : Z) : int (Qc_of_Z z) = z.
Proof.
  unfold int, Qc_of_Z, Q2Qc. cbn [this].
  rewrite Qred_identity by (cbn; apply Z.gcd_1_r).
  cbn. apply Z.quot_1_r.
Qed.

(** ** Group keys *)

Section GroupKeys.
Import Frame.

Lemma insert_key_In k ks x : In x (insert_key k ks) <-> x = k \/ In x ks.
Proof.
  induction ks as [|a ks IH]; cbn.
  - intuition.
  - destruct (String_as_OT.compare_spec k a) as [->|_|_]; cbn;
      rewrite ?IH; intuition.
Qed.

Lemma group_keys_In ks x : In x (group_keys ks) <-> In x ks.
Proof.
  induction ks as [|a ks IH]; cbn; [reflexivity|].
  rewrite insert_key_In, IH. intuition.
Qed.

Lemma key_lt_trans a b c : key_lt a b -> key_lt b c -> key_lt a c.
Proof. apply String_as_OT.lt_strorder. Qed.

Lemma key_lt_irrefl a : ~ key_lt a a.
Proof. apply String_as_OT.lt_strorder. Qed.

Lemma insert_key_sorted k ks :
  StronglySorted key_lt ks -> StronglySorted key_lt (insert_key k ks).
Proof.
  induction 1 as [|a ks Hs IH Ha]; cbn.
  - repeat constructor.
  - destruct (String_as_OT.compare_spec k a) as [->|Hlt|Hgt].
    + now constructor.
    + constructor; [now constructor|].
      constructor; [exact Hlt|].
      eapply List.Forall_impl; [|exact Ha].
      intros c Hc. exact (key_lt_trans _ _ _ Hlt Hc).
    + constructor; [exact IH|].
      apply List.Forall_forall. intros x Hx.
      apply insert_key_In in Hx as [->|Hx]; [exact Hgt|].
      rewrite List.Forall_forall in Ha. now apply Ha.
Qed.

Lemma group_keys_sorted ks : StronglySorted key_lt (group_keys ks).
Proof.
  induction ks; cbn; [constructor|now apply insert_key_sorted].
Qed.

(** A strictly ascending list is determined by its elements. *)
Lemma sorted_keys_unique (l l' : list string) :
  StronglySorted key_lt l -> StronglySorted key_lt l' ->
  (forall x, In x l <-> In x l') -> l = l'.
Proof.
  intros Hl. revert l'.
  induction Hl as [|a l Hs IH Ha]; intros l' Hl' Hin.
  - destruct l' as [|b l']; [reflexivity|].
    destruct (proj2 (Hin b)). now left.
  - destruct Hl' as [|b l' Hs' Hb].
    { destruct (proj1 (Hin a)). now left. }
    rewrite List.Forall_forall in Ha, Hb.
    assert (a = b) as ->.
    { destruct (proj1 (Hin a) (or_introl eq_refl)) as [E|Ia]; [now symmetry|].
      destruct (proj2 (Hin b) (or_introl eq_refl)) as [E|Ib]; [exact E|].
      exfalso. apply (key_lt_irrefl a).
      exact (key_lt_trans _ _ _ (Ha _ Ib) (Hb _ Ia)). }
    f_equal. apply IH; [exact Hs'|].
    intros x. split; intros Hx.
    + destruct (proj1 (Hin x) (or_intror Hx)) as [E|I]; [|exact I].
      subst x. destruct (key_lt_irrefl _ (Ha _ Hx)).
    + destruct (proj2 (Hin x) (or_intror Hx)) as [E|I]; [|exact I].
      subst x. destruct (key_lt_irrefl _ (Hb _ Hx)).
Qed.



Lemma group_keys_NoDup ks : List.NoDup (group_keys ks).
Proof.
  generalize (group_keys_sorted ks).
  induction 1 as [|a l Hs IH Ha]; constructor; [|exact IH].
  intros Hin. rewrite List.Forall_forall in Ha.
  exact (key_lt_irrefl _ (Ha _ Hin)).
Qed.
End GroupKeys.

(** ** Group-by and merges *)

Section FrameFacts.
Import Frame.


Lemma groupby_keys {A} (key : A -> string) rows :
  List.map fst (groupby key rows) = group_keys (List.map key rows).
Proof.
  unfold groupby. rewrite List.map_map. cbn. apply List.map_id.
Qed.

Lemma groupby_In {A} (key : A -> string) rows k g :
  In (k, g) (groupby key rows) <->
  In k (List.map key rows) /\ g = group key rows k.
Proof.
  unfold groupby. rewrite List.in_map_iff. split.
  - intros (k' & [= <- <-] & Hk). now rewrite group_keys_In in Hk.
  - intros (Hk & ->). exists k. now rewrite group_keys_In.
Qed.

Lemma group_In {A} (key : A -> string) rows k r :
  In r (group key rows k) <-> In r rows /\ key r = k.
Proof.
  unfold group. rewrite List.filter_In, String.eqb_eq. reflexivity.
Qed.

Section MergeFacts.
Context {A B K : Type} `{EqDecision K}.
Context (left_on : A -> K) (right_on : B -> K).

Lemma matches_In a right b :
  In b (matches left_on right_on a right) <->
  In b right /\ right_on b = left_on a.
Proof.
  unfold matches. rewrite List.filter_In, bool_decide_eq_true.
  reflexivity.
Qed.

(** Distinct right keys: a left row has at most one match. *)
Lemma matches_unique a right :
  List.NoDup (List.map right_on right) ->
  (length (matches left_on right_on a right) <= 1)%nat.
Proof.
  unfold matches. induction right as [|b right IH]; cbn; [lia|].
  intros Hnd. inversion Hnd as [|? ? Hb Hnd']; subst.
  case_bool_decide as Hk; cbn; [|now apply IH].
  assert (List.filter (fun b0 => bool_decide (right_on b0 = left_on a))
            right = []) as ->; [|cbn; lia].
  clear IH Hnd. induction right as [|c right IH]; cbn; [reflexivity|].
  apply List.NoDup_cons_iff in Hnd' as [Hc Hnd'].
  case_bool_decide as Hk'.
  - destruct Hb. left. congruence.
  - apply IH; [|exact Hnd']. intros Hin. apply Hb. now right.
Qed.

Lemma merge_left_In_Some left right a b :
  In (a, Some b) (merge_left left_on right_on left right) <->
  In a left /\ In b right /\ right_on b = left_on a.
Proof.
  unfold merge_left, left_rows. rewrite List.in_flat_map. split.
  - intros (a' & Ha & Hin).
    destruct (matches left_on right_on a' right) as [|b0 bs] eqn:E.
    + cbn in Hin. destruct Hin as [[=]|[]].
    + rewrite <- E in Hin. apply List.in_map_iff in Hin
        as (b' & [= <- <-] & Hb). apply matches_In in Hb. tauto.
  - intros (Ha & Hb & Hk). exists a. split; [exact Ha|].
    assert (In b (matches left_on right_on a right)) as Hm
      by now apply matches_In.
    destruct (matches left_on right_on a right) as [|b0 bs] eqn:E;
      [destruct Hm|].
    apply List.in_map_iff. now exists b.
Qed.

Lemma merge_left_In_None left right a :
  In (a, None) (merge_left left_on right_on left right) <->
  In a left /\ forall b, In b right -> right_on b <> left_on a.
Proof.
  unfold merge_left, left_rows. rewrite List.in_flat_map. split.
  - intros (a' & Ha & Hin).
    destruct (matches left_on right_on a' right) as [|b0 bs] eqn:E.
    + cbn in Hin. destruct Hin as [[= <-]|[]]. split; [exact Ha|].
      intros b Hb Hk.
      assert (In b (matches left_on right_on a' right)) as Hm
        by now apply matches_In.
      rewrite E in Hm. destruct Hm.
    + apply List.in_map_iff in Hin as (b' & [=] & _).
  - intros (Ha & Hno). exists a. split; [exact Ha|].
    destruct (matches left_on right_on a right) as [|b0 bs] eqn:E;
      [now left|].
    assert (In b0 (matches left_on right_on a right)) as Hm
      by (rewrite E; now left).
    apply matches_In in Hm as [Hb Hk]. destruct (Hno _ Hb Hk).
Qed.

Lemma left_rows_length right a :
  (1 <= length (left_rows left_on right_on right a))%nat.
Proof.
  unfold left_rows.
  destruct (matches left_on right_on a right); cbn; lia.
Qed.

Lemma left_rows_fst right a :
  List.NoDup (List.map right_on right) ->
  List.map fst (left_rows left_on right_on right a) = [a].
Proof.
  intros Hnd. unfold left_rows.
  pose proof (matches_unique a right Hnd) as Hm.
  destruct (matches left_on right_on a right) as [|b [|b' bs]];
    cbn in *; try reflexivity. lia.
Qed.

(** A left join never loses a left row. *)
Lemma merge_left_length_ge left right :
  (length left <= length (merge_left left_on right_on left right))%nat.
Proof.
  unfold merge_left. induction left as [|a left IH]; cbn; [lia|].
  rewrite List.length_app.
  pose proof (left_rows_length right a). lia.
Qed.

(** With distinct right keys the left rows come out one for one. *)
Lemma merge_left_fst left right :
  List.NoDup (List.map right_on right) ->
  List.map fst (merge_left left_on right_on left right) = left.
Proof.
  intros Hnd. unfold merge_left.
  induction left as [|a left IH]; cbn; [reflexivity|].
  now rewrite List.map_app, IH, left_rows_fst.
Qed.

Lemma merge_left_length left right :
  List.NoDup (List.map right_on right) ->
  length (merge_left left_on right_on left right) = length left.
Proof.
  intros Hnd. rewrite <- (merge_left_fst left right Hnd) at 2.
  now rewrite List.length_map.
Qed.
End MergeFacts.
End FrameFacts.

(** ** Reordering a column *)


(** ** Facts about the borough pipeline *)

Section BoroughFacts.
Import Borough Frame.

Lemma cleaned_In (df : list csv_row) (r : row) :
  In r (cleaned df) <->
  (exists c, In c df /\ clean c = Some r) /\ Borough r <> "Unknown".
Proof.
  unfold cleaned, known. rewrite List.filter_In, negb_true_iff.
  rewrite <- list_elem_of_In, list_elem_of_omap.
  setoid_rewrite list_elem_of_In.
  rewrite <- not_true_iff_false, String.eqb_eq. reflexivity.
Qed.

Lemma cleaned_app (l1 l2 : list csv_row) :
  cleaned (l1 ++ l2) = cleaned l1 ++ cleaned l2.
Proof. unfold cleaned. now rewrite omap_app, List.filter_app. Qed.

Lemma cleaned_cons (c : csv_row) (l : list csv_row) :
  cleaned (c :: l) = cleaned [c] ++ cleaned l.
Proof. exact (cleaned_app [c] l). Qed.


Lemma borough_summary_In (df : list csv_row) (s : summary) :
  In s (borough_summary df) <->
  In (borough s) (List.map Borough (cleaned df)) /\
  s = agg (borough s, group Borough (cleaned df) (borough s)).
Proof.
  unfold borough_summary. rewrite List.in_map_iff. split.
  - intros ([k g] & <- & Hin). apply groupby_In in Hin as [Hk ->].
    cbn. now split.
  - intros [Hk Hs]. eexists. split; [symmetry; exact Hs|].
    now apply groupby_In.
Qed.

Lemma get_borough_cases (u : Qc) :
  let z := int u in
  (101 <= z <= 107 /\ get_borough_from_uhf u = "Bronx") \/
  (201 <= z <= 211 /\ get_borough_from_uhf u = "Brooklyn") \/
  (301 <= z <= 310 /\ get_borough_from_uhf u = "Manhattan") \/
  (401 <= z <= 410 /\ get_borough_from_uhf u = "Queens") \/
  (501 <= z <= 504 /\ get_borough_from_uhf u = "Staten Island") \/
  (~ 101 <= z <= 107 /\ ~ 201 <= z <= 211 /\ ~ 301 <= z <= 310 /\
   ~ 401 <= z <= 410 /\ ~ 501 <= z <= 504 /\
   get_borough_from_uhf u = "Unknown").
Proof.
  unfold get_borough_from_uhf. cbn zeta.
  repeat (match goal with
          | |- context [(?a <=? ?b)] => destruct (Z.leb_spec a b); cbn [andb]
          end);
    try (left; split; [lia|reflexivity]);
    try (right; left; split; [lia|reflexivity]);
    try (right; right; left; split; [lia|reflexivity]);
    try (right; right; right; left; split; [lia|reflexivity]);
    try (right; right; right; right; left; split; [lia|reflexivity]);
    repeat right; repeat split; try lia; reflexivity.
Qed.
End BoroughFacts.

Section BoroughClaims.
Import Borough Frame.

Lemma clean_borough (c : csv_row) (r : row) :
  clean c = Some r ->
  exists u, csv_UHF42 c = Some u /\ Borough r = get_borough_from_uhf u.
Proof.
  unfold clean. destruct (csv_UHF42 c) as [u|]; [|discriminate].
  destruct (csv_Population c), (csv_NO2 c), (csv_O3 c); try discriminate.
  cbn. intros [= <-]. now exists u.
Qed.

(** A row that is dropped by the cleaning or whose borough is "Unknown"
    leaves no trace in [df]. *)
Lemma cleaned_skip (l1 l2 : list csv_row) (c : csv_row) :
  (forall r, clean c = Some r -> Borough r = "Unknown") ->
  cleaned (l1 ++ c :: l2) = cleaned (l1 ++ l2).
Proof.
  intros Hc. rewrite !cleaned_app, (cleaned_cons c l2). f_equal.
  unfold cleaned at 1. cbn. destruct (clean c) as [r|] eqn:E; [|reflexivity].
  cbn. unfold known. now rewrite (Hc r eq_refl).
Qed.

(** C1. The borough of a UHF42 code follows the five ranges (101-107
    Bronx, 201-211 Brooklyn, 301-310 Manhattan, 401-410 Queens, 501-504
    Staten Island), every other integer code is "Unknown", no row of the
    borough summary is keyed "Unknown", and a record whose borough is
    "Unknown" changes nothing in the summary. *)
Theorem borough_derivation (z : Z) (l1 l2 : list csv_row) (c : csv_row) :
  (101 <= z <= 107 -> get_borough_from_uhf (Qc_of_Z z) = "Bronx") /\
  (201 <= z <= 211 -> get_borough_from_uhf (Qc_of_Z z) = "Brooklyn") /\
  (301 <= z <= 310 -> get_borough_from_uhf (Qc_of_Z z) = "Manhattan") /\
  (401 <= z <= 410 -> get_borough_from_uhf (Qc_of_Z z) = "Queens") /\
  (501 <= z <= 504 ->
   get_borough_from_uhf (Qc_of_Z z) = "Staten Island") /\
  (~ 101 <= z <= 107 -> ~ 201 <= z <= 211 -> ~ 301 <= z <= 310 ->
   ~ 401 <= z <= 410 -> ~ 501 <= z <= 504 ->
   get_borough_from_uhf (Qc_of_Z z) = "Unknown") /\
  (forall s, In s (borough_summary (l1 ++ c :: l2)) ->
             borough s <> "Unknown") /\
  (csv_UHF42 c = Some (Qc_of_Z z) ->
   get_borough_from_uhf (Qc_of_Z z) = "Unknown" ->
   borough_summary (l1 ++ c :: l2) = borough_summary (l1 ++ l2)).
Proof.
  pose proof (get_borough_cases (Qc_of_Z z)) as H. cbn zeta in H.
  rewrite int_of_Z in H.
  repeat split; try (intros; intuition (congruence || lia)).
  - intros s Hs. apply borough_summary_In in Hs as [Hk _].
    apply List.in_map_iff in Hk as (r & <- & Hr).
    now apply cleaned_In in Hr.
  - intros Hu Hunk. unfold borough_summary. rewrite cleaned_skip; [easy|].
    intros r Hr. apply clean_borough in Hr as (u & Hu' & ->). congruence.
Qed.

(** C2 (as amended). The rate of a borough is computed from the two sums
    of its group: [(A / P) * 10000] when the summed population [P] is not
    zero; when [P] is zero it is NaN for [A = 0] and an infinity with the
    sign of [A] otherwise.  Nothing is raised. *)
Theorem asthma_rate_after_summation (df : list csv_row) (s : summary) :
  In s (borough_summary df) ->
  let g := group Borough (cleaned df) (borough s) in
  let P := total (List.map Population g) in
  let A := total (List.map Asthma_Count g) in
  Population_sum s = P /\ Asthma_Count_sum s = A /\
  (P <> Q2Qc 0 -> asthma_rate s = Num (A / P * Qc_of_Z 10000)%Qc) /\
  (P = Q2Qc 0 -> A = Q2Qc 0 -> asthma_rate s = NaN) /\
  (P = Q2Qc 0 -> (Q2Qc 0 < A)%Qc -> asthma_rate s = PInf) /\
  (P = Q2Qc 0 -> (A < Q2Qc 0)%Qc -> asthma_rate s = NInf) /\
  outcome (prepare_borough_data FINAL_DATASET_CSV (Some df))
    = inr (borough_summary df).
Proof.
  intros Hs g P A. apply borough_summary_In in Hs as [_ Hs].
  fold g in Hs. rewrite Hs. unfold agg; cbn. fold P A.
  unfold asthma_rate_of, truediv.
  repeat split.
  - intros HP. destruct (Qc_eqb P 0) eqn:E; [|reflexivity].
    apply Qc_eqb_eq in E. contradiction.
  - intros HP HA. rewrite HP, HA. reflexivity.
  - intros HP HA. rewrite HP.
    replace (Qc_eqb (Q2Qc 0) 0) with true by reflexivity.
    destruct (Qc_eqb A 0) eqn:E.
    + apply Qc_eqb_eq in E. rewrite E in HA.
      destruct (Qclt_not_eq _ _ HA). reflexivity.
    + apply Qc_ltb_lt in HA. now rewrite HA.
  - intros HP HA. rewrite HP.
    replace (Qc_eqb (Q2Qc 0) 0) with true by reflexivity.
    destruct (Qc_eqb A 0) eqn:E.
    + apply Qc_eqb_eq in E. rewrite E in HA.
      destruct (Qclt_not_eq _ _ HA). reflexivity.
    + destruct (Qc_ltb 0 A) eqn:E'; [|reflexivity].
      apply Qc_ltb_lt in E'.
      destruct (Qclt_not_le _ _ HA). now apply Qclt_le_weak.
Qed.
End BoroughClaims.

Lemma sample_summary_keys :
  List.map Borough.borough (Borough.borough_summary sample_csv)
  = ["Bronx"; "Staten Island"].
Proof. vm_compute. reflexivity. Qed.

Lemma sample_bronx_In : In sample_bronx (Borough.borough_summary sample_csv).
Proof.
  unfold sample_bronx. apply nth_In.
  rewrite <- (List.length_map Borough.borough), sample_summary_keys.
  cbn. lia.
Qed.

Lemma sample_staten_island_In :
  In sample_staten_island (Borough.borough_summary sample_csv).
Proof.
  unfold sample_staten_island. apply nth_In.
  rewrite <- (List.length_map Borough.borough), sample_summary_keys.
  cbn. lia.
Qed.

Lemma borough_derivation_witness :
  Borough.get_borough_from_uhf (Qc_of_Z 105) = "Bronx" /\
  Borough.get_borough_from_uhf (Qc_of_Z 999) = "Unknown" /\
  Borough.borough_summary ([] ++ csv 999 7 1 1 None :: sample_csv)
  = Borough.borough_summary ([] ++ sample_csv).
Proof.
  split.
  - apply (borough_derivation 105 [] [] (csv 105 1 1 1 None)). lia.
  - destruct (borough_derivation 999 [] sample_csv (csv 999 7 1 1 None))
      as (_ & _ & _ & _ & _ & Hunknown & _ & Hskip).
    assert (Borough.get_borough_from_uhf (Qc_of_Z 999) = "Unknown") as Hu
      by (apply Hunknown; lia).
    split; [exact Hu|]. apply Hskip; [reflexivity|exact Hu].
Defined.

Lemma asthma_rate_after_summation_witness :
  In sample_bronx (Borough.borough_summary sample_csv) /\
  Borough.asthma_rate sample_bronx
  = Num (Borough.Asthma_Count_sum sample_bronx
         / Borough.Population_sum sample_bronx * Qc_of_Z 10000)%Qc.
Proof.
  split; [exact sample_bronx_In|].
  destruct (asthma_rate_after_summation sample_csv sample_bronx
              sample_bronx_In) as (HP & HA & Hrate & _).
  rewrite HP, HA. apply Hrate.
  intros H. apply (f_equal this) in H. vm_compute in H. discriminate.
Defined.

(** C2 fails on a group without residents that has asthma cases: its rate
    is an infinity, which pandas does not count as missing. *)
Lemma asthma_rate_zero_population_infinite :
  In sample_staten_island (Borough.borough_summary sample_csv) /\
  Borough.Population_sum sample_staten_island = Q2Qc 0 /\
  Borough.asthma_rate sample_staten_island = PInf /\
  isna (Borough.asthma_rate sample_staten_island) = false.
Proof.
  split; [exact sample_staten_island_In|].
  split; [apply Qc_is_canon; vm_compute; reflexivity|].
  split; vm_compute; reflexivity.
Qed.

Lemma clean_missing_asthma (c : Borough.csv_row) :
  Borough.csv_Asthma_Count c = None ->
  Borough.clean c = Borough.clean (with_asthma c (Some (Q2Qc 0))).
Proof. intros H. unfold Borough.clean. cbn. now rewrite H. Qed.

Lemma cleaned_replace (l1 l2 : list Borough.csv_row) (c c' : Borough.csv_row) :
  Borough.clean c = Borough.clean c' ->
  Borough.cleaned (l1 ++ c :: l2) = Borough.cleaned (l1 ++ c' :: l2).
Proof.
  intros H. rewrite !cleaned_app, (cleaned_cons c), (cleaned_cons c').
  do 2 f_equal. unfold Borough.cleaned. cbn. now rewrite H.
Qed.

(** C9. A record without asthma count counts as one with zero cases; a
    record without UHF42 code, population, NO2 or O3 value is dropped and
    contributes to no row of the borough summary. *)
Theorem cleaning_rules (l1 l2 : list Borough.csv_row) (c : Borough.csv_row) :
  (Borough.csv_Asthma_Count c = None ->
   (forall r, Borough.clean c = Some r -> Borough.Asthma_Count r = Q2Qc 0) /\
   Borough.borough_summary (l1 ++ c :: l2)
   = Borough.borough_summary (l1 ++ with_asthma c (Some (Q2Qc 0)) :: l2)) /\
  (Borough.csv_UHF42 c = None \/ Borough.csv_Population c = None \/
   Borough.csv_NO2 c = None \/ Borough.csv_O3 c = None ->
   Borough.clean c = None /\
   Borough.cleaned (l1 ++ c :: l2) = Borough.cleaned (l1 ++ l2) /\
   Borough.borough_summary (l1 ++ c :: l2)
   = Borough.borough_summary (l1 ++ l2)).
Proof.
  split.
  - intros Ha. split.
    + intros r. unfold Borough.clean. rewrite Ha.
      destruct (Borough.csv_UHF42 c), (Borough.csv_Population c),
        (Borough.csv_NO2 c), (Borough.csv_O3 c); cbn; try discriminate.
      now intros [= <-].
    + unfold Borough.borough_summary.
      now rewrite (cleaned_replace l1 l2 c _ (clean_missing_asthma c Ha)).
  - intros Hm.
    assert (Borough.clean c = None) as Hc.
    { unfold Borough.clean.
      destruct (Borough.csv_UHF42 c), (Borough.csv_Population c),
        (Borough.csv_NO2 c), (Borough.csv_O3 c); cbn; try reflexivity.
      intuition discriminate. }
    assert (Borough.cleaned (l1 ++ c :: l2) = Borough.cleaned (l1 ++ l2))
      as Hd by (apply cleaned_skip; rewrite Hc; discriminate).
    repeat split; [exact Hc|exact Hd|].
    unfold Borough.borough_summary. now rewrite Hd.
Qed.

Lemma cleaning_rules_witness :
  Borough.borough_summary ([csv 101 10 3 4 (Some 2)] ++
                           csv 102 30 4 4 None :: [csv 502 0 3 4 (Some 5)])
  = Borough.borough_summary
      ([csv 101 10 3 4 (Some 2)] ++
       with_asthma (csv 102 30 4 4 None) (Some (Q2Qc 0))
         :: [csv 502 0 3 4 (Some 5)]) /\
  Borough.borough_summary
    ([] ++ {| Borough.csv_UHF42 := Some (Qc_of_Z 201);
              Borough.csv_Population := None;
              Borough.csv_NO2 := Some (Qc_of_Z 1);
              Borough.csv_O3 := Some (Qc_of_Z 1);
              Borough.csv_Asthma_Count := Some (Qc_of_Z 9) |} :: sample_csv)
  = Borough.borough_summary ([] ++ sample_csv).
Proof.
  split.
  - apply (cleaning_rules [csv 101 10 3 4 (Some 2)]
             [csv 502 0 3 4 (Some 5)] (csv 102 30 4 4 None)).
    reflexivity.
  - apply (cleaning_rules [] sample_csv
             {| Borough.csv_UHF42 := Some (Qc_of_Z 201);
                Borough.csv_Population := None;
                Borough.csv_NO2 := Some (Qc_of_Z 1);
                Borough.csv_O3 := Some (Qc_of_Z 1);
                Borough.csv_Asthma_Count := Some (Qc_of_Z 9) |}).
    right. left. reflexivity.
Defined.

(** ** Facts about the ZIP3 pipeline *)


Lemma merge_inner_In {A B K : Type} `{EqDecision K}
    (left_on : A -> K) (right_on : B -> K) (l : list A) (r : list B) a b :
  In (a, b) (Frame.merge_inner left_on right_on l r) <->
  In a l /\ In b r /\ right_on b = left_on a.
Proof.
  unfold Frame.merge_inner. rewrite List.in_flat_map. split.
  - intros (a' & Ha & Hin). apply List.in_map_iff in Hin
      as (b' & [= <- <-] & Hb). apply matches_In in Hb. tauto.
  - intros (Ha & Hb & Hk). exists a. split; [exact Ha|].
    apply List.in_map_iff. exists b. split; [reflexivity|].
    now apply matches_In.
Qed.




(** ** The geo merge *)

Lemma borough_summary_keys (df : list Borough.csv_row) :
  List.map Borough.borough (Borough.borough_summary df)
  = Frame.group_keys (List.map Borough.Borough (Borough.cleaned df)).
Proof.
  unfold Borough.borough_summary. rewrite List.map_map.
  rewrite <- groupby_keys, List.map_ext with (g := fst); reflexivity.
Qed.

(** A group-by output has one row per key. *)
Lemma borough_summary_NoDup (df : list Borough.csv_row) :
  List.NoDup (List.map Borough.borough (Borough.borough_summary df)).
Proof. rewrite borough_summary_keys. apply group_keys_NoDup. Qed.

Lemma aggregated_NoDup (final_df : list Zip3.uhf_row)
    (zip3_map : list (Z * Z)) :
  List.NoDup
    (List.map Zip3.zip3 (Zip3.aggregated_uhf_data final_df zip3_map)).
Proof.
  unfold Zip3.aggregated_uhf_data. rewrite List.map_map.
  rewrite List.map_ext with (g := fst) by reflexivity.
  rewrite groupby_keys. apply group_keys_NoDup.
Qed.

(** The rows of [geo_df] are the rows of [asthma_pd], one for one. *)
Lemma geo_df_keys (asthma_pd : list Zip3.asthma_row)
    (final_df : list Zip3.uhf_row) (zip3_map : list (Z * Z)) :
  List.map (fun g : Zip3.geo_row => Zip3.asthma_zip3 g.1)
    (Zip3.geo_df asthma_pd final_df zip3_map)
  = List.map Zip3.asthma_zip3 asthma_pd.
Proof.
  unfold Zip3.geo_df.
  rewrite <- (merge_left_fst Zip3.asthma_zip3 Zip3.zip3 asthma_pd
                (Zip3.aggregated_uhf_data final_df zip3_map)
                (aggregated_NoDup final_df zip3_map)) at 2.
  now rewrite List.map_map.
Qed.

Lemma merge_left_multiplicity {A B K : Type} `{EqDecision K}
    (left_on : A -> K) (right_on : B -> K) (l : list A) (r : list B) :
  List.map fst (Frame.merge_left left_on right_on l r)
  = List.flat_map
      (fun a => repeat a
                  (Nat.max 1 (length (Frame.matches left_on right_on a r))))
      l.
Proof.
  unfold Frame.merge_left. induction l as [|a l IH]; cbn; [reflexivity|].
  rewrite List.map_app, IH. f_equal. unfold Frame.left_rows.
  destruct (Frame.matches left_on right_on a r) as [|b bs]; [reflexivity|].
  change (Nat.max 1 (length (b :: bs))) with (S (length bs)).
  cbn. f_equal. clear IH.
  induction bs as [|x bs IHm]; cbn; [reflexivity|now rewrite IHm].
Qed.

Lemma merge_left_left_join {A B K : Type} `{EqDecision K}
    (left_on : A -> K) (right_on : B -> K) (left : list A) (right : list B) :
  left_join_of left_on right_on left right
    (Frame.merge_left left_on right_on left right).
Proof.
  split; [|split].
  - intros a b. apply merge_left_In_Some.
  - intros a. apply merge_left_In_None.
  - apply merge_left_multiplicity.
Qed.

Lemma borough_null_metrics (boroughs : list Borough.feature)
    (borough_data : list Borough.summary) (f : Borough.feature) :
  (forall s, In s borough_data -> Borough.borough s <> Borough.name f) ->
  null_metrics Borough.column borough_metrics
    (Frame.merge_left Borough.name Borough.borough boroughs borough_data) f.
Proof.
  intros Hno [f' [s|]] Hr E; cbn in E; subst f'.
  - apply merge_left_In_Some in Hr as (_ & Hs & Hk). destruct (Hno s Hs Hk).
  - split; [reflexivity|]. intros c Hc.
    repeat (destruct Hc as [<-|Hc];
            [eexists; split; [reflexivity|split; reflexivity]|]).
    destruct Hc.
Qed.

Lemma zip3_null_metrics (zctas : list Zip3.feature)
    (geo_df : list Zip3.geo_row) (f : Zip3.feature) :
  (forall g : Zip3.geo_row,
      In g geo_df -> Zip3.asthma_zip3 g.1 <> Zip3.feature_zip3 f) ->
  null_metrics Zip3.column zip3_metrics (Zip3.merged_gdf zctas geo_df) f.
Proof.
  intros Hno [f' [g|]] Hr E; cbn in E; subst f'.
  - apply merge_left_In_Some in Hr as (_ & Hg & Hk). destruct (Hno g Hg Hk).
  - split; [reflexivity|]. intros c Hc.
    repeat (destruct Hc as [<-|Hc];
            [eexists; split; [reflexivity|split; reflexivity]|]).
    destruct Hc.
Qed.

(** C3. On a boundary file with at least one polygon the geo merge of
    either pipeline is a left join that keeps every polygon: the matched
    rows are exactly the pairs of a polygon and a summary row with its key,
    a polygon without summary row is kept, once, with every metric null,
    the polygons come out in their order, each once per summary row with
    its key, and so never fewer rows than polygons.  Against a summary
    with one row per key, as every group-by output is, the output has
    exactly the input polygons, one row each. *)
Theorem geo_merge_keeps_every_polygon
    (path : string) (df : list Borough.csv_row)
    (boroughs : list Borough.feature) (borough_data : list Borough.summary)
    (zctas : list Zip3.feature) (geo_df : list Zip3.geo_row) :
  boroughs <> [] -> zctas <> [] ->
  (exists m,
      Borough.prepare_geospatial_data path (inr boroughs) borough_data
      = ([Print (nl +:+ "--- Preparing Geospatial Data for Boroughs ---")],
         inr (Some m)) /\
      left_join_of Borough.name Borough.borough boroughs borough_data m /\
      (length boroughs <= length m)%nat /\
      (forall f, In f boroughs ->
         (forall s, In s borough_data ->
                    Borough.borough s <> Borough.name f) ->
         In (f, None) m /\
         null_metrics Borough.column borough_metrics m f) /\
      (List.NoDup (List.map Borough.borough borough_data) ->
       length m = length boroughs /\ List.map fst m = boroughs)) /\
  (exists m,
      outcome (Borough.prepare_geospatial_data path (inr boroughs)
                 (Borough.borough_summary df)) = inr (Some m) /\
      length m = length boroughs /\ List.map fst m = boroughs) /\
  (exists m,
      Zip3.prepare_geospatial_data path (inr zctas) geo_df
      = ([Print (nl +:+ "--- Preparing Geospatial Data ---");
          Print "Creating ZIP3 boundaries..."],
         inr (Some m)) /\
      left_join_of Zip3.feature_zip3
        (fun g : Zip3.geo_row => Zip3.asthma_zip3 g.1) zctas geo_df m /\
      (length zctas <= length m)%nat /\
      (forall f, In f zctas ->
         (forall g : Zip3.geo_row,
             In g geo_df -> Zip3.asthma_zip3 g.1 <> Zip3.feature_zip3 f) ->
         In (f, None) m /\ null_metrics Zip3.column zip3_metrics m f) /\
      (List.NoDup
         (List.map (fun g : Zip3.geo_row => Zip3.asthma_zip3 g.1) geo_df) ->
       length m = length zctas /\ List.map fst m = zctas)) /\
  (forall asthma_pd final_df zip3_map,
      List.NoDup (List.map Zip3.asthma_zip3 asthma_pd) ->
      exists m,
        outcome (Zip3.prepare_geospatial_data path (inr zctas)
                   (Zip3.geo_df asthma_pd final_df zip3_map))
        = inr (Some m) /\
        length m = length zctas /\ List.map fst m = zctas).
Proof.
  intros Hb Hz.
  destruct boroughs as [|b0 bs]; [now destruct Hb|].
  destruct zctas as [|z0 zs]; [now destruct Hz|].
  split; [|split; [|split]].
  - eexists. split; [reflexivity|].
    split; [apply merge_left_left_join|].
    split; [apply merge_left_length_ge|]. split.
    + intros f Hf Hno. split; [now apply merge_left_In_None|].
      now apply borough_null_metrics.
    + intros Hnd.
      split; [now apply merge_left_length|now apply merge_left_fst].
  - eexists. split; [reflexivity|].
    split; [apply merge_left_length|apply merge_left_fst];
      apply borough_summary_NoDup.
  - eexists. split; [reflexivity|].
    split; [apply (merge_left_left_join Zip3.feature_zip3)|].
    split; [apply (merge_left_length_ge Zip3.feature_zip3)|]. split.
    + intros f Hf Hno.
      split; [now apply (merge_left_In_None Zip3.feature_zip3)|].
      now apply zip3_null_metrics.
    + intros Hnd. split; [now apply (merge_left_length Zip3.feature_zip3)|
                          now apply (merge_left_fst Zip3.feature_zip3)].
  - intros asthma_pd final_df zip3_map Hnd. eexists.
    split; [reflexivity|].
    assert (List.NoDup
              (List.map (fun g : Zip3.geo_row => Zip3.asthma_zip3 g.1)
                 (Zip3.geo_df asthma_pd final_df zip3_map))) as Hkeys
      by now rewrite geo_df_keys.
    split; [now apply (merge_left_length Zip3.feature_zip3)|
            now apply (merge_left_fst Zip3.feature_zip3)].
Qed.

(** With the asthma counts of two years for the area 104, the one polygon
    10451 comes out of the ZIP3 geo merge twice; and on a boundary file
    without polygon either merge raises KeyError. *)
Lemma geo_merge_repeats_polygon :
  (exists m,
      outcome (Zip3.prepare_geospatial_data Zip3.GEOJSON_LOCAL_FILE
                 (inr [sample_zcta])
                 (Zip3.geo_df two_year_asthma_pd sample_final_df
                    Zip3.UHF_TO_ZIP3_MAP_DATA)) = inr (Some m) /\
      length m = 2%nat /\ List.map fst m = [sample_zcta; sample_zcta]) /\
  length [sample_zcta] = 1%nat /\
  outcome (Borough.prepare_geospatial_data Borough.geojson_borough_file
             (inr []) (Borough.borough_summary sample_csv))
  = inl (Exn KeyError "name") /\
  outcome (Zip3.prepare_geospatial_data Zip3.GEOJSON_LOCAL_FILE (inr [])
             (Zip3.geo_df two_year_asthma_pd sample_final_df
                Zip3.UHF_TO_ZIP3_MAP_DATA))
  = inl (Exn KeyError "postalCode").
Proof.
  split; [|repeat split].
  eexists. split; [reflexivity|]. split; vm_compute; reflexivity.
Qed.

(** ** The join with the mapping table *)

Lemma links_pos (zip3_map : list (Z * Z)) (uhf z : Z) :
  In (uhf, z) zip3_map -> (1 <= links zip3_map uhf (pretty z))%nat.
Proof.
  unfold links. induction zip3_map as [|m l IH]; cbn; [intros []|].
  intros [->|Hin].
  - cbn. rewrite bool_decide_eq_true_2, String.eqb_refl by reflexivity.
    cbn. lia.
  - destruct (_ && _); cbn; [lia|now apply IH].
Qed.

Lemma group_records_one (r : Zip3.uhf_row) (zip3_map : list (Z * Z))
    (k : string) :
  group_records [r] zip3_map k = repeat r (links zip3_map (Zip3.UHF42 r) k).
Proof.
  unfold group_records, Zip3.uhf_data_with_zip3, Frame.merge_inner,
    Frame.group, Frame.matches, links. cbn. rewrite List.app_nil_r.
  induction zip3_map as [|m l IH]; cbn; [reflexivity|].
  case_bool_decide as Hk; cbn; [|exact IH].
  destruct (String.eqb (pretty m.2) k); cbn; [now rewrite IH|exact IH].
Qed.

Lemma group_records_app (d1 d2 : list Zip3.uhf_row)
    (zip3_map : list (Z * Z)) (k : string) :
  group_records (d1 ++ d2) zip3_map k
  = group_records d1 zip3_map k ++ group_records d2 zip3_map k.
Proof.
  unfold group_records, Zip3.uhf_data_with_zip3, Frame.merge_inner,
    Frame.group.
  now rewrite List.flat_map_app, List.filter_app, List.map_app.
Qed.

Lemma aggregated_In (final_df : list Zip3.uhf_row) (zip3_map : list (Z * Z))
    (s : Zip3.summary) :
  In s (Zip3.aggregated_uhf_data final_df zip3_map) <->
  (exists r m, In r final_df /\ In m zip3_map /\ m.1 = Zip3.UHF42 r /\
               Zip3.zip3 s = pretty m.2) /\
  s = Zip3.agg (Zip3.zip3 s,
                Frame.group (fun r : Zip3.uhf_row * Zip3.map_row =>
                               Zip3.map_zip3 r.2)
                  (Zip3.uhf_data_with_zip3 final_df zip3_map) (Zip3.zip3 s)).
Proof.
  unfold Zip3.aggregated_uhf_data. rewrite List.in_map_iff.
  assert (forall k,
    In k (List.map (fun r : Zip3.uhf_row * Zip3.map_row => Zip3.map_zip3 r.2)
            (Zip3.uhf_data_with_zip3 final_df zip3_map)) <->
    exists r m, In r final_df /\ In m zip3_map /\ m.1 = Zip3.UHF42 r /\
                k = pretty m.2) as Hkeys.
  { intros k. rewrite List.in_map_iff. unfold Zip3.uhf_data_with_zip3. split.
    - intros ([r mr] & <- & Hin). apply merge_inner_In in Hin
        as (Hr & Hm & Hk). apply List.in_map_iff in Hm as (m & <- & Hm).
      now exists r, m.
    - intros (r & m & Hr & Hm & Hk & ->).
      exists (r, Zip3.astype_str m). split; [reflexivity|].
      apply merge_inner_In. split; [exact Hr|]. split; [|exact Hk].
      apply List.in_map_iff. now exists m. }
  split.
  - intros ([k g] & <- & Hin). apply groupby_In in Hin as [Hk ->].
    cbn. split; [now apply Hkeys|reflexivity].
  - intros [Hk Hs]. eexists. split; [symmetry; exact Hs|].
    apply groupby_In. split; [now apply Hkeys|reflexivity].
Qed.

(** C8. A record of [final_df] whose UHF42 code the mapping table sends to
    two ZIP3 codes is put, whole, into the group of each of them: each
    group holds the record itself once per table row that links it, the
    two groups are different rows of the aggregate, and their means and
    sums are taken over these records. *)
Theorem zip3_fan_out (d1 d2 : list Zip3.uhf_row) (r : Zip3.uhf_row)
    (zip3_map : list (Z * Z)) (z1 z2 z : Z) :
  In (Zip3.UHF42 r, z1) zip3_map ->
  In (Zip3.UHF42 r, z2) zip3_map ->
  z1 <> z2 ->
  z = z1 \/ z = z2 ->
  let final_df := d1 ++ r :: d2 in
  let n := links zip3_map (Zip3.UHF42 r) (pretty z) in
  let records := group_records final_df zip3_map (pretty z) in
  (1 <= n)%nat /\
  records = group_records d1 zip3_map (pretty z) ++ repeat r n
            ++ group_records d2 zip3_map (pretty z) /\
  In r records /\
  pretty z1 <> pretty z2 /\
  exists s, In s (Zip3.aggregated_uhf_data final_df zip3_map) /\
            Zip3.zip3 s = pretty z /\
            Zip3.NO2_avg s = mean (dropna_values (List.map Zip3.NO2 records)) /\
            Zip3.O3_avg s = mean (dropna_values (List.map Zip3.O3 records)) /\
            Zip3.Population_sum s
            = total (dropna_values (List.map Zip3.Population records)).
Proof.
  intros H1 H2 Hne Hz final_df n records.
  assert (In (Zip3.UHF42 r, z) zip3_map) as Hin by (destruct Hz; now subst).
  assert (1 <= n)%nat as Hn by now apply links_pos.
  assert (records = group_records d1 zip3_map (pretty z) ++ repeat r n
                    ++ group_records d2 zip3_map (pretty z)) as Hrec.
  { unfold records, final_df.
    change (r :: d2) with ([r] ++ d2).
    now rewrite !group_records_app, group_records_one. }
  split; [exact Hn|]. split; [exact Hrec|]. split; [|split].
  - rewrite Hrec. apply List.in_or_app. right. apply List.in_or_app. left.
    destruct n; [lia|now left].
  - intros E. apply Hne. now apply (inj pretty).
  - eexists (Zip3.agg (pretty z, _)). split; [|repeat split].
    apply aggregated_In. cbn. split; [|reflexivity].
    exists r, (Zip3.UHF42 r, z). repeat split; try easy.
    unfold final_df. apply List.in_or_app. right. now left.
Qed.

(** ** The keys of the ZIP3 merges *)

Lemma map_table_key_length :
  List.Forall (fun m : Z * Z => String.length (pretty m.2) = 3%nat)
    Zip3.UHF_TO_ZIP3_MAP_DATA.
Proof. repeat constructor. Qed.

Lemma substring_length (n : nat) (s : string) :
  String.length (String.substring 0 n s) = Nat.min n (String.length s).
Proof.
  revert s. induction n as [|n IH]; intros [|c s]; cbn; try reflexivity.
  now rewrite IH.
Qed.

(** C10. The keys of the ZIP3 aggregate are the decimal strings of the
    mapping table's numbers, one key for every table row whose code occurs
    in [final_df] (three characters each for the table of the script); the
    key of a polygon is the first three characters of its postal code,
    fewer when the code is shorter.  Both merges compare these strings for
    equality: an aggregate row reaches a polygon exactly when some row of
    [asthma_pd] carries its key and the prefix of the polygon is that very
    string; joined keys are equal, so of equal length. *)
Theorem zip3_keys_are_strings
    (asthma_pd : list Zip3.asthma_row) (final_df : list Zip3.uhf_row)
    (zip3_map : list (Z * Z)) (zctas : list Zip3.feature)
    (f : Zip3.feature) (a : Zip3.asthma_row) (s : Zip3.summary) :
  let aggregated := Zip3.aggregated_uhf_data final_df zip3_map in
  let geo_df := Zip3.geo_df asthma_pd final_df zip3_map in
  let merged := Zip3.merged_gdf zctas geo_df in
  (In s aggregated ->
   exists m, In m zip3_map /\ Zip3.zip3 s = pretty m.2) /\
  (forall m r, In m zip3_map -> In r final_df -> m.1 = Zip3.UHF42 r ->
               exists s', In s' aggregated /\ Zip3.zip3 s' = pretty m.2) /\
  (In s (Zip3.aggregated_uhf_data final_df Zip3.UHF_TO_ZIP3_MAP_DATA) ->
   String.length (Zip3.zip3 s) = 3%nat) /\
  Zip3.feature_zip3 f = String.substring 0 3 (Zip3.postalCode f) /\
  String.length (Zip3.feature_zip3 f)
  = Nat.min 3 (String.length (Zip3.postalCode f)) /\
  (In (a, Some s) geo_df <->
   In a asthma_pd /\ In s aggregated /\ Zip3.asthma_zip3 a = Zip3.zip3 s) /\
  (In (a, None) geo_df <->
   In a asthma_pd /\
   forall s', In s' aggregated -> Zip3.zip3 s' <> Zip3.asthma_zip3 a) /\
  (forall g, In (f, Some g) merged <->
             In f zctas /\ In g geo_df /\
             String.substring 0 3 (Zip3.postalCode f) = Zip3.asthma_zip3 g.1) /\
  (In (f, Some (a, Some s)) merged <->
   In f zctas /\ In a asthma_pd /\ In s aggregated /\
   String.substring 0 3 (Zip3.postalCode f) = Zip3.asthma_zip3 a /\
   Zip3.asthma_zip3 a = Zip3.zip3 s) /\
  ((exists a', In (f, Some (a', Some s)) merged) <->
   In f zctas /\ In s aggregated /\
   String.substring 0 3 (Zip3.postalCode f) = Zip3.zip3 s /\
   exists a', In a' asthma_pd /\ Zip3.asthma_zip3 a' = Zip3.zip3 s) /\
  (In (f, Some (a, Some s)) merged ->
   String.length (Zip3.feature_zip3 f) = String.length (Zip3.asthma_zip3 a) /\
   String.length (Zip3.asthma_zip3 a) = String.length (Zip3.zip3 s) /\
   exists m, In m zip3_map /\
             String.substring 0 3 (Zip3.postalCode f) = pretty m.2 /\
             Zip3.zip3 s = pretty m.2).
Proof.
  intros aggregated geo_df merged.
  assert (forall tbl s0, In s0 (Zip3.aggregated_uhf_data final_df tbl) ->
                         exists m, In m tbl /\ Zip3.zip3 s0 = pretty m.2)
    as Hkey.
  { intros tbl s0 Hs.
    apply aggregated_In in Hs as [(r & m & _ & Hm & _ & E) _].
    now exists m. }
  assert (forall a0 s0, In (a0, Some s0) geo_df <->
          In a0 asthma_pd /\ In s0 aggregated /\
          Zip3.asthma_zip3 a0 = Zip3.zip3 s0) as Hgeo.
  { intros a0 s0. unfold geo_df, Zip3.geo_df. rewrite merge_left_In_Some.
    fold aggregated. intuition congruence. }
  assert (forall g, In (f, Some g) merged <->
                    In f zctas /\ In g geo_df /\
                    String.substring 0 3 (Zip3.postalCode f)
                    = Zip3.asthma_zip3 g.1) as Hmerged.
  { intros g. unfold merged, Zip3.merged_gdf. rewrite merge_left_In_Some.
    unfold Zip3.feature_zip3. intuition congruence. }
  assert (forall a0, In (f, Some (a0, Some s)) merged <->
            In f zctas /\ In a0 asthma_pd /\ In s aggregated /\
            String.substring 0 3 (Zip3.postalCode f) = Zip3.asthma_zip3 a0 /\
            Zip3.asthma_zip3 a0 = Zip3.zip3 s) as Hboth.
  { intros a0. rewrite Hmerged, Hgeo. cbn. tauto. }
  split; [apply Hkey|]. split.
  { intros m r Hm Hr Hk.
    exists (Zip3.agg (pretty m.2,
                      Frame.group (fun r : Zip3.uhf_row * Zip3.map_row =>
                                     Zip3.map_zip3 r.2)
                        (Zip3.uhf_data_with_zip3 final_df zip3_map)
                        (pretty m.2))).
    split; [|reflexivity]. apply aggregated_In. cbn.
    split; [|reflexivity]. now exists r, m. }
  split.
  { intros Hs. destruct (Hkey _ _ Hs) as (m & Hm & ->).
    pose proof map_table_key_length as Hlen.
    rewrite List.Forall_forall in Hlen. now apply Hlen. }
  split; [reflexivity|]. split.
  { unfold Zip3.feature_zip3. apply substring_length. }
  split; [apply Hgeo|]. split.
  { unfold geo_df, Zip3.geo_df. rewrite merge_left_In_None.
    fold aggregated. reflexivity. }
  split; [exact Hmerged|]. split; [apply Hboth|]. split.
  { split.
    - intros (a' & Hin). apply Hboth in Hin as (Hf & Ha & Hs & E1 & E2).
      repeat split; [exact Hf|exact Hs|congruence|now exists a'].
    - intros (Hf & Hs & E & a' & Ha & Ea). exists a'. apply Hboth.
      repeat split; [exact Hf|exact Ha|exact Hs|congruence|exact Ea]. }
  intros Hin. apply Hboth in Hin as (_ & _ & Hs & E1 & E2).
  split; [unfold Zip3.feature_zip3; now rewrite E1|].
  split; [now rewrite E2|].
  destruct (Hkey _ _ Hs) as (m & Hm & E). exists m.
  repeat split; congruence.
Qed.

(** The aggregate has a row with the key 104, and 104 is the prefix of the
    postal code 10451; yet with no row of [asthma_pd] for that key the
    polygon comes out of the merges without the aggregate.  And a postal
    code of two characters is joined on a key of two characters. *)
Lemma zip3_equal_prefix_not_joined :
  In sample_zip3_104
    (Zip3.aggregated_uhf_data sample_final_df Zip3.UHF_TO_ZIP3_MAP_DATA) /\
  Zip3.zip3 sample_zip3_104 = pretty 104 /\
  String.substring 0 3 (Zip3.postalCode sample_zcta) = pretty 104 /\
  Zip3.merged_gdf [sample_zcta]
    (Zip3.geo_df [] sample_final_df Zip3.UHF_TO_ZIP3_MAP_DATA)
  = [(sample_zcta, None)] /\
  List.map
    (fun r : Zip3.merged_row =>
       (Zip3.feature_zip3 r.1,
        option_map (fun g : Zip3.geo_row => Zip3.asthma_zip3 g.1) r.2))
    (Zip3.merged_gdf [short_zcta]
       (Zip3.geo_df short_asthma_pd sample_final_df
          Zip3.UHF_TO_ZIP3_MAP_DATA))
  = [("10", Some "10")].
Proof.
  split; [unfold sample_zip3_104; apply nth_In; vm_compute; lia|].
  repeat split; vm_compute; reflexivity.
Qed.

(** ** Classification and the bivariate renderer *)

Lemma edges_length (x : list Qc) (q : nat) :
  length (Qcut.edges x q) = (q + 1)%nat.
Proof. unfold Qcut.edges. now rewrite List.length_map, List.length_seq. Qed.

(** With the labels [range(q)], dropping a repeated edge always ends in the
    label check: fewer bins than labels. *)
Lemma qcut_finite_duplicates (x : list Qc) (q : nat) :
  (2 <= q)%nat -> has_duplicates (Qcut.edges x q) = true ->
  Qcut.qcut_finite x q = inl Qcut.labels_error.
Proof.
  intros Hq Hdup. unfold Qcut.qcut_finite, Qcut.drop_duplicates.
  unfold has_duplicates in Hdup. rewrite Hdup.
  apply Nat.ltb_lt in Hdup. rewrite edges_length in *.
  replace (q + 1 =? 2)%nat with false by (symmetry; apply Nat.eqb_neq; lia).
  cbn [negb andb].
  replace (q =? _)%nat with false by (symmetry; apply Nat.eqb_neq; lia).
  reflexivity.
Qed.

(** Without repeated edge the column is classified. *)
Lemma qcut_finite_distinct (x : list Qc) (q : nat) :
  has_duplicates (Qcut.edges x q) = false ->
  Qcut.qcut_finite x q
  = inr (List.map (Qcut.label (Qcut.edges x q)) x).
Proof.
  intros Hdup. unfold Qcut.qcut_finite, Qcut.drop_duplicates.
  unfold has_duplicates in Hdup. rewrite Hdup. cbn [andb].
  rewrite edges_length.
  replace (q =? _)%nat with true by (symmetry; apply Nat.eqb_eq; lia).
  reflexivity.
Qed.

(** On finite columns [pd.qcut] raises nothing but the ValueError of the
    label check. *)
Lemma qcut_finite_error (x : list Qc) (q : nat) (e : exn) :
  Qcut.qcut_finite x q = inl e -> e = Qcut.labels_error.
Proof.
  unfold Qcut.qcut_finite. destruct (_ =? _)%nat; [discriminate|].
  now intros [= <-].
Qed.

Section RenderFacts.
Context {R : Type}.
Variable column : string -> option (R -> cell).
Variable n_quantiles : nat.
Variable qcut_nonfinite : list cell -> nat -> exn + list (option nat).

Lemma dropna_all_null (c1 c2 : R -> cell) (gdf : list R) :
  (forall r, In r gdf -> isna (c1 r) = true \/ isna (c2 r) = true) ->
  Render.dropna c1 c2 gdf = [].
Proof.
  intros H. unfold Render.dropna. induction gdf as [|r gdf IH]; cbn;
    [reflexivity|].
  destruct (H r (or_introl eq_refl)) as [-> | ->]; cbn;
    rewrite ?andb_false_r; apply IH; intros r' Hr'; apply H; now right.
Qed.

Lemma plot_bivariate_map_no_data (gdf : list R)
    (v1 v2 l1 l2 : string) (colors : gmap string string)
    (title output_path : string) (c1 c2 : R -> cell) :
  column v1 = Some c1 -> column v2 = Some c2 ->
  (forall r, In r gdf -> isna (c1 r) = true \/ isna (c2 r) = true) ->
  Render.plot_bivariate_map column n_quantiles qcut_nonfinite gdf
    v1 v2 l1 l2 colors title output_path
  = ([start_notice l1 l2; no_data_notice title], inr tt).
Proof.
  intros H1 H2 Hnull. unfold Render.plot_bivariate_map.
  rewrite H1, H2, (dropna_all_null c1 c2 gdf Hnull). reflexivity.
Qed.

(** The [except ValueError] branch. *)
Lemma plot_bivariate_map_value_error (gdf : list R)
    (v1 v2 l1 l2 : string) (colors : gmap string string)
    (title output_path : string) (c1 c2 : R -> cell) (e : exn) :
  column v1 = Some c1 -> column v2 = Some c2 ->
  Render.dropna c1 c2 gdf <> [] ->
  Render.classify n_quantiles qcut_nonfinite c1 c2
    (Render.dropna c1 c2 gdf) = inl e ->
  kind e = ValueError ->
  Render.plot_bivariate_map column n_quantiles qcut_nonfinite gdf
    v1 v2 l1 l2 colors title output_path
  = ([start_notice l1 l2; skip_notice title e], inr tt).
Proof.
  intros H1 H2 Hrows Hc Hk. unfold Render.plot_bivariate_map.
  rewrite H1, H2. destruct (Render.dropna c1 c2 gdf) as [|r rows] eqn:E;
    [contradiction|].
  rewrite Hc, Hk. reflexivity.
Qed.
End RenderFacts.

Lemma qcut_duplicate_edges qcut_nonfinite (col : list cell) (q : nat) :
  (2 <= q)%nat -> duplicate_edges col q = true ->
  Qcut.qcut qcut_nonfinite col q = inl Qcut.labels_error.
Proof.
  unfold duplicate_edges, Qcut.qcut. intros Hq.
  destruct (Qcut.finite_values col); [|discriminate].
  now apply qcut_finite_duplicates.
Qed.

Lemma qcut_all_finite qcut_nonfinite (col : list cell) (q : nat) :
  all_finite col = true ->
  Qcut.qcut qcut_nonfinite col q = inl Qcut.labels_error \/
  exists labels, Qcut.qcut qcut_nonfinite col q = inr labels.
Proof.
  unfold all_finite, Qcut.qcut.
  destruct (Qcut.finite_values col) as [x|]; [intros _|discriminate].
  destruct (Qcut.qcut_finite x q) as [e|l] eqn:E; [left|right; now exists l].
  now rewrite (qcut_finite_error _ _ _ E).
Qed.

(** C5. When the quantile edges of one of the two (finite) metric columns
    repeat a value, the dropped edges leave fewer bins than the fixed
    labels, [pd.qcut] raises ValueError, and the map is skipped: two
    notices, no file, no exception.  The same holds for every ValueError of
    the classification. *)
Theorem duplicate_edges_skip_the_map {R : Type}
    (column : string -> option (R -> cell)) (n_quantiles : nat)
    (qcut_nonfinite : list cell -> nat -> exn + list (option nat))
    (gdf : list R) (v1 v2 l1 l2 : string) (colors : gmap string string)
    (title output_path : string) (c1 c2 : R -> cell) :
  column v1 = Some c1 -> column v2 = Some c2 ->
  (2 <= n_quantiles)%nat ->
  Render.dropna c1 c2 gdf <> [] ->
  let rows := Render.dropna c1 c2 gdf in
  let plot := Render.plot_bivariate_map column n_quantiles qcut_nonfinite
                gdf v1 v2 l1 l2 colors title output_path in
  (all_finite (List.map c1 rows) = true ->
   duplicate_edges (List.map c1 rows) n_quantiles
   || duplicate_edges (List.map c2 rows) n_quantiles = true ->
   Render.classify n_quantiles qcut_nonfinite c1 c2 rows
   = inl Qcut.labels_error /\
   plot = ([start_notice l1 l2; skip_notice title Qcut.labels_error],
           inr tt)) /\
  (forall e, Render.classify n_quantiles qcut_nonfinite c1 c2 rows = inl e ->
             kind e = ValueError ->
             plot = ([start_notice l1 l2; skip_notice title e], inr tt)).
Proof.
  intros H1 H2 Hn Hrows rows plot.
  assert (forall e, Render.classify n_quantiles qcut_nonfinite c1 c2 rows
                    = inl e -> kind e = ValueError ->
                    plot = ([start_notice l1 l2; skip_notice title e], inr tt))
    as Hskip by (intros e; now apply plot_bivariate_map_value_error).
  split; [|exact Hskip].
  intros Hfin Hdup.
  assert (Render.classify n_quantiles qcut_nonfinite c1 c2 rows
          = inl Qcut.labels_error) as Hc.
  { unfold Render.classify.
    destruct (duplicate_edges (List.map c1 rows) n_quantiles) eqn:D1.
    - now rewrite qcut_duplicate_edges.
    - cbn in Hdup.
      destruct (qcut_all_finite qcut_nonfinite _ n_quantiles Hfin)
        as [-> | [labels ->]]; [reflexivity|].
      now rewrite qcut_duplicate_edges. }
  split; [exact Hc|]. now apply Hskip.
Qed.

(** C6. When every row lacks one of the two metrics, nothing is drawn: the
    renderer of either pipeline prints its two notices, writes no file and
    returns. *)
Theorem bivariate_map_skipped_without_data
    (qcut_nonfinite : list cell -> nat -> exn + list (option nat))
    (bgdf : list Borough.merged_row) (zgdf : list Zip3.merged_row)
    (bv1 bv2 zv1 zv2 l1 l2 : string) (colors : gmap string string)
    (title output_path : string)
    (bc1 bc2 : Borough.merged_row -> cell)
    (zc1 zc2 : Zip3.merged_row -> cell) :
  Borough.column bv1 = Some bc1 -> Borough.column bv2 = Some bc2 ->
  Zip3.column zv1 = Some zc1 -> Zip3.column zv2 = Some zc2 ->
  (forall r, In r bgdf -> isna (bc1 r) = true \/ isna (bc2 r) = true) ->
  (forall r, In r zgdf -> isna (zc1 r) = true \/ isna (zc2 r) = true) ->
  let bplot := Borough.plot_bivariate_map qcut_nonfinite bgdf bv1 bv2 l1 l2
                 colors title output_path in
  let zplot := Zip3.plot_bivariate_map qcut_nonfinite zgdf zv1 zv2 l1 l2
                 colors title output_path in
  bplot = ([start_notice l1 l2; no_data_notice title], inr tt) /\
  zplot = ([start_notice l1 l2; no_data_notice title], inr tt) /\
  written bplot = [] /\ written zplot = [] /\
  returns bplot /\ returns zplot.
Proof.
  intros Hb1 Hb2 Hz1 Hz2 Hb Hz bplot zplot.
  assert (bplot = ([start_notice l1 l2; no_data_notice title], inr tt)) as Eb
    by (apply (plot_bivariate_map_no_data Borough.column) with bc1 bc2;
        assumption).
  assert (zplot = ([start_notice l1 l2; no_data_notice title], inr tt)) as Ez
    by (apply (plot_bivariate_map_no_data Zip3.column) with zc1 zc2;
        assumption).
  rewrite Eb, Ez. repeat split; try reflexivity; now exists tt.
Qed.

(** ** Missing boundary file *)

(** X7. Without the boundary file the borough run reports the failure and
    returns: the data is prepared, two notices are printed, no map is
    made and nothing is raised. *)
Lemma borough_main_without_boundaries
    (qcut_nonfinite : list cell -> nat -> exn + list (option nat))
    (df : list Borough.csv_row) (e : exn) :
  Borough.main qcut_nonfinite (Some df) (inl e)
  = ([Print "--- Preparing Borough Data ---";
      Print "Borough data preparation complete.";
      PrintFrame "borough_summary";
      Print (nl +:+ "--- Preparing Geospatial Data for Boroughs ---");
      Print ("Could not load geospatial data from "
             +:+ Borough.geojson_borough_file +:+ ". Error: " +:+ message e);
      Print "Exiting due to geospatial data loading failure."],
     inr tt).
Proof. reflexivity. Qed.

(** C4 fails in the ZIP3 pipeline.  Its [main] uses [map_gdf] (the call of
    [drop_duplicates]) before it tests it for [None]: without boundary file
    the run reports the failure and then raises AttributeError; the notice
    of the orderly exit is never printed. *)
Theorem zip3_main_raises_without_boundaries
    (qcut_nonfinite : list cell -> nat -> exn + list (option nat))
    (path : string) (asthma_pd : list Zip3.asthma_row)
    (final_df : list Zip3.uhf_row) (e : exn) :
  Zip3.main qcut_nonfinite path (Some asthma_pd) (Some final_df) (inl e)
  = ([Print "--- Preparing Data ---";
      Print (nl +:+ "Data preparation complete.");
      Print (nl +:+ "--- DEBUG: Inspecting aggregated data in geo_df ---");
      PrintFrame "geo_df";
      Print "end";
      Print (nl +:+ "--- Preparing Geospatial Data ---");
      Print ("Could not load geospatial data from "
             +:+ Zip3.GEOJSON_LOCAL_PATH path +:+ ". Error: " +:+ message e)],
     inl (Zip3.none_error "drop_duplicates")).
Proof. reflexivity. Qed.

(** ** The claims on the sample inputs *)

Lemma geo_merge_keeps_every_polygon_witness :
  exists m,
    outcome (Borough.prepare_geospatial_data Borough.geojson_borough_file
               (inr five_boroughs) []) = inr (Some m) /\
    length m = 5%nat /\ List.map fst m = five_boroughs.
Proof.
  destruct (geo_merge_keeps_every_polygon Borough.geojson_borough_file
              sample_csv five_boroughs [] [sample_zcta] []
              ltac:(discriminate) ltac:(discriminate))
    as ((m & Hm & _ & _ & _ & Hkeys) & _).
  exists m. split; [now rewrite Hm|]. apply Hkeys. constructor.
Defined.

Lemma duplicate_edges_skip_the_map_witness :
  Borough.plot_bivariate_map qcut_nonfinite_fails skewed_gdf
    "asthma_rate" "NO2_avg" "Asthma Rate" "NO2" Borough.bivariate_colors
    "Bivariate Map: Asthma Rate vs. NO2 Levels"
    "output/map_borough_bivariate_asthma_no2.png"
  = ([Print "--- Starting Bivariate Choropleth ( Asthma Rate vs NO2 ) ---";
      Print ("Could not classify data for bivariate map "
             +:+ "'Bivariate Map: Asthma Rate vs. NO2 Levels'. Error: "
             +:+ "Bin labels must be one fewer than the number of bin edges"
             +:+ ". Skipping.")],
     inr tt).
Proof.
  apply (duplicate_edges_skip_the_map Borough.column Borough.n_quantiles
           qcut_nonfinite_fails skewed_gdf "asthma_rate" "NO2_avg"
           "Asthma Rate" "NO2" Borough.bivariate_colors
           "Bivariate Map: Asthma Rate vs. NO2 Levels"
           "output/map_borough_bivariate_asthma_no2.png"
           (Borough.metric Borough.asthma_rate)
           (Borough.metric Borough.NO2_avg)).
  - reflexivity.
  - reflexivity.
  - unfold Borough.n_quantiles. lia.
  - vm_compute. discriminate.
  - vm_compute. reflexivity.
  - vm_compute. reflexivity.
Defined.

Lemma bivariate_map_skipped_without_data_witness :
  Borough.plot_bivariate_map qcut_nonfinite_fails empty_gdf
    "asthma_rate" "NO2_avg" "Asthma Rate" "NO2" Borough.bivariate_colors
    "Bivariate Map: Asthma Rate vs. NO2 Levels"
    "output/map_borough_bivariate_asthma_no2.png"
  = ([Print "--- Starting Bivariate Choropleth ( Asthma Rate vs NO2 ) ---";
      Print ("No data to plot for "
             +:+ "Bivariate Map: Asthma Rate vs. NO2 Levels" +:+ ". Skipping.")],
     inr tt).
Proof.
  apply (bivariate_map_skipped_without_data qcut_nonfinite_fails
           empty_gdf empty_zgdf "asthma_rate" "NO2_avg"
           "Asthma_Count" "NO2_avg" "Asthma Rate" "NO2"
           Borough.bivariate_colors
           "Bivariate Map: Asthma Rate vs. NO2 Levels"
           "output/map_borough_bivariate_asthma_no2.png"
           (Borough.metric Borough.asthma_rate)
           (Borough.metric Borough.NO2_avg)
           Zip3.asthma_metric (Zip3.metric Zip3.NO2_avg));
    try reflexivity.
  - intros r Hr. right. vm_compute in Hr.
    repeat (destruct Hr as [<-|Hr]; [reflexivity|]). destruct Hr.
  - intros r Hr. right. vm_compute in Hr.
    repeat (destruct Hr as [<-|Hr]; [reflexivity|]). destruct Hr.
Defined.


Lemma zip3_fan_out_witness :
  In (uhf 101 20 30 1000)
     (group_records ([] ++ uhf 101 20 30 1000 :: [uhf 305 22 28 3000])
        fan_out_map "104") /\
  In (uhf 101 20 30 1000)
     (group_records ([] ++ uhf 101 20 30 1000 :: [uhf 305 22 28 3000])
        fan_out_map "100").
Proof.
  assert (In (101, 104) fan_out_map) as H1 by (cbn; tauto).
  assert (In (101, 100) fan_out_map) as H2 by (cbn; tauto).
  assert (104 <> 100) as Hne by lia.
  split.
  - exact (proj1 (proj2 (proj2
      (zip3_fan_out [] [uhf 305 22 28 3000] (uhf 101 20 30 1000)
         fan_out_map 104 100 104 H1 H2 Hne (or_introl eq_refl))))).
  - exact (proj1 (proj2 (proj2
      (zip3_fan_out [] [uhf 305 22 28 3000] (uhf 101 20 30 1000)
         fan_out_map 104 100 100 H1 H2 Hne (or_intror eq_refl))))).
Defined.

Lemma zip3_keys_are_strings_witness :
  String.length (Zip3.feature_zip3 sample_zcta) = 3%nat /\
  String.length (Zip3.zip3 sample_zip3_104) = 3%nat.
Proof.
  destruct (zip3_keys_are_strings sample_asthma_pd sample_final_df
              Zip3.UHF_TO_ZIP3_MAP_DATA [sample_zcta] sample_zcta
              {| Zip3.asthma_zip3 := "104";
                 Zip3.Asthma_Count := Some (Qc_of_Z 7) |}
              sample_zip3_104)
    as (_ & _ & Hlen & _ & Hf & _).
  split.
  - rewrite Hf. reflexivity.
  - apply Hlen. unfold sample_zip3_104. apply nth_In. vm_compute. lia.
Defined.

(** * Further properties *)

Lemma filter_sorted (p : string -> bool) (l : list string) :
  StronglySorted Frame.key_lt l ->
  StronglySorted Frame.key_lt (List.filter p l).
Proof.
  induction 1 as [|a l Hs IH Ha]; cbn; [constructor|].
  destruct (p a); [|exact IH]. constructor; [exact IH|].
  rewrite List.Forall_forall in *. intros x Hx.
  apply List.filter_In in Hx as [Hx _]. now apply Ha.
Qed.

Lemma borough_names_sorted : StronglySorted Frame.key_lt borough_names.
Proof. repeat constructor. Qed.

Lemma cleaned_borough_name (df : list Borough.csv_row) (r : Borough.row) :
  In r (Borough.cleaned df) -> In (Borough.Borough r) borough_names.
Proof.
  intros Hr. apply cleaned_In in Hr as [(c & _ & Hc) Hne].
  apply clean_borough in Hc as (u & _ & E). rewrite E in *.
  pose proof (get_borough_cases u) as H. cbn zeta in H.
  destruct H as [[_ ->]|[[_ ->]|[[_ ->]|[[_ ->]|[[_ ->]|(_&_&_&_&_&H)]]]]];
    cbn; tauto.
Qed.

(** X1. The rows of the borough summary are keyed by boroughs that have a
    cleaned record, in alphabetical order and without repetition: at most
    five rows. *)
Theorem borough_summary_rows (df : list Borough.csv_row) :
  List.map Borough.borough (Borough.borough_summary df)
  = List.filter (has_records df) borough_names /\
  (length (Borough.borough_summary df) <= 5)%nat.
Proof.
  assert (List.map Borough.borough (Borough.borough_summary df)
          = List.filter (has_records df) borough_names) as E.
  { rewrite borough_summary_keys. apply sorted_keys_unique.
    - apply group_keys_sorted.
    - apply filter_sorted, borough_names_sorted.
    - intros x. rewrite group_keys_In, List.filter_In, List.in_map_iff.
      unfold has_records. rewrite List.existsb_exists. split.
      + intros (r & <- & Hr). split; [now apply (cleaned_borough_name df)|].
        exists r. split; [exact Hr|apply String.eqb_refl].
      + intros (_ & r & Hr & Hk). apply String.eqb_eq in Hk. now exists r. }
  split; [exact E|].
  rewrite <- (List.length_map Borough.borough), E.
  etransitivity; [apply List.filter_length_le|]. reflexivity.
Qed.

Lemma filter_ext_in_bool {A} (p q : A -> bool) (l : list A) :
  (forall a, In a l -> p a = q a) -> List.filter p l = List.filter q l.
Proof.
  induction l as [|a l IH]; cbn; [reflexivity|]. intros H.
  rewrite (H a (or_introl eq_refl)), IH; [reflexivity|].
  intros b Hb. apply H. now right.
Qed.

Lemma summary_means (df : list Borough.csv_row) (s : Borough.summary) :
  In s (Borough.borough_summary df) ->
  let g := Frame.group Borough.Borough (Borough.cleaned df)
             (Borough.borough s) in
  (1 <= length g)%nat /\
  Borough.NO2_avg s
  = Num (total (List.map Borough.NO2 g) / Qc_of_nat (length g))%Qc /\
  Borough.O3_avg s
  = Num (total (List.map Borough.O3 g) / Qc_of_nat (length g))%Qc.
Proof.
  intros Hs g. apply borough_summary_In in Hs as [Hk Hs]. fold g in Hs.
  apply List.in_map_iff in Hk as (r & Hr & Hin).
  assert (In r g) as Hg by now apply group_In.
  rewrite Hs. unfold Borough.agg; cbn.
  destruct g as [|r0 g0]; [destruct Hg|].
  cbn [List.map mean length]. rewrite !List.length_map.
  split; [lia|]. split; reflexivity.
Qed.

(** X3. Every row of the borough summary averages a group that is not
    empty: its two means are numbers, never null, namely the sum of the
    group's values over the number of its records. *)
Theorem borough_means_defined (df : list Borough.csv_row)
    (s : Borough.summary) :
  In s (Borough.borough_summary df) ->
  let g := Frame.group Borough.Borough (Borough.cleaned df)
             (Borough.borough s) in
  (1 <= length g)%nat /\
  Borough.NO2_avg s
  = Num (total (List.map Borough.NO2 g) / Qc_of_nat (length g))%Qc /\
  Borough.O3_avg s
  = Num (total (List.map Borough.O3 g) / Qc_of_nat (length g))%Qc.
Proof. exact (summary_means df s). Qed.

(** ** The renderers: files and exceptions *)

Section RenderMore.
Context {R : Type}.
Variable column : string -> option (R -> cell).
Variable n_quantiles : nat.

Lemma dropna_In (c1 c2 : R -> cell) (gdf : list R) (r : R) :
  In r (Render.dropna c1 c2 gdf) <->
  In r gdf /\ isna (c1 r) = false /\ isna (c2 r) = false.
Proof.
  unfold Render.dropna. rewrite List.filter_In, andb_true_iff,
    !negb_true_iff. reflexivity.
Qed.

Lemma all_finite_Forall (col : list cell) :
  (forall c, In c col -> isna c = false /\ no_infinity c = true) ->
  all_finite col = true.
Proof.
  unfold all_finite. induction col as [|c col IH]; cbn; [reflexivity|].
  intros H. destruct (H c (or_introl eq_refl)) as [Hna Hinf].
  destruct c; try discriminate.
  destruct (Qcut.finite_values col); [reflexivity|].
  apply IH. intros c' Hc'. apply H. now right.
Qed.

Lemma dropna_all_finite (c c1 c2 : R -> cell) (gdf : list R) :
  (c = c1 \/ c = c2) ->
  (forall r, In r gdf -> no_infinity (c r) = true) ->
  all_finite (List.map c (Render.dropna c1 c2 gdf)) = true.
Proof.
  intros Hc Hinf. apply all_finite_Forall. intros x Hx.
  apply List.in_map_iff in Hx as (r & <- & Hr).
  apply dropna_In in Hr as (Hr & H1 & H2).
  split; [destruct Hc; now subst|now apply Hinf].
Qed.

Lemma qcut_finite_column qn qn' (col : list cell) (q : nat) :
  all_finite col = true ->
  Qcut.qcut qn col q = Qcut.qcut qn' col q /\
  (Qcut.qcut qn col q = inl Qcut.labels_error \/
   exists labels, Qcut.qcut qn col q = inr labels).
Proof.
  intros Hf. split; [|now apply qcut_all_finite].
  unfold all_finite in Hf. unfold Qcut.qcut.
  now destruct (Qcut.finite_values col).
Qed.

End RenderMore.

(** X6. Without the dataset the borough run stops at once: one line is
    printed, FileNotFoundError names the missing file, the boundary file is
    not looked at and nothing is written. *)
Theorem borough_main_without_dataset
    (qcut_nonfinite : list cell -> nat -> exn + list (option nat))
    (geojson : exn + list Borough.feature) :
  Borough.main qcut_nonfinite None geojson
  = ([Print "--- Preparing Borough Data ---"],
     inl (Exn FileNotFoundError
            ("Dataset not found at final_dataset.csv. "
             +:+ "Please run the main notebook to generate it."))).
Proof. reflexivity. Qed.

(** ** The ZIP3 joins *)

(** X17. In the ZIP3 geo merge a polygon comes out once per row of [geo_df]
    that carries its key, and once when there is none; the polygons keep
    their order. *)
Theorem zip3_geo_merge_multiplicity (zctas : list Zip3.feature)
    (geo_df : list Zip3.geo_row) :
  List.map fst (Zip3.merged_gdf zctas geo_df)
  = List.flat_map
      (fun f => repeat f (Nat.max 1 (matching_rows geo_df f))) zctas /\
  length (Zip3.merged_gdf zctas geo_df)
  = list_sum (List.map (fun f => Nat.max 1 (matching_rows geo_df f)) zctas).
Proof.
  assert (List.map fst (Zip3.merged_gdf zctas geo_df)
          = List.flat_map
              (fun f => repeat f (Nat.max 1 (matching_rows geo_df f))) zctas)
    as E by apply merge_left_multiplicity.
  split; [exact E|].
  transitivity (length (List.map fst (Zip3.merged_gdf zctas geo_df)));
    [symmetry; apply List.length_map|].
  rewrite E. clear E.
  induction zctas as [|f l IH]; cbn [List.flat_map List.map list_sum];
    [reflexivity|].
  now rewrite List.length_app, List.repeat_length, IH.
Qed.

Lemma uhf_data_app (d1 d2 : list Zip3.uhf_row) (zip3_map : list (Z * Z)) :
  Zip3.uhf_data_with_zip3 (d1 ++ d2) zip3_map
  = Zip3.uhf_data_with_zip3 d1 zip3_map
    ++ Zip3.uhf_data_with_zip3 d2 zip3_map.
Proof.
  unfold Zip3.uhf_data_with_zip3, Frame.merge_inner.
  apply List.flat_map_app.
Qed.

Lemma listed_matches (zip3_map : list (Z * Z)) (r : Zip3.uhf_row) :
  listed zip3_map r = false <->
  Frame.matches Zip3.UHF42 Zip3.map_UHF42 r
    (List.map Zip3.astype_str zip3_map) = [].
Proof.
  unfold listed, Frame.matches.
  induction zip3_map as [|m l IH]; cbn; [tauto|].
  destruct (Z.eqb_spec m.1 (Zip3.UHF42 r)) as [E|E]; cbn.
  - rewrite bool_decide_eq_true_2 by exact E. split; discriminate.
  - rewrite bool_decide_eq_false_2 by exact E. exact IH.
Qed.

(** X14. The join with the mapping table is an inner join: a record of
    [final_df] whose UHF42 code the table does not list is dropped, and
    the ZIP3 aggregate is the same as without that record. *)
Theorem zip3_unlisted_code_dropped (d1 d2 : list Zip3.uhf_row)
    (r : Zip3.uhf_row) (zip3_map : list (Z * Z)) :
  listed zip3_map r = false ->
  Zip3.uhf_data_with_zip3 (d1 ++ r :: d2) zip3_map
  = Zip3.uhf_data_with_zip3 (d1 ++ d2) zip3_map /\
  Zip3.aggregated_uhf_data (d1 ++ r :: d2) zip3_map
  = Zip3.aggregated_uhf_data (d1 ++ d2) zip3_map.
Proof.
  intros Hl.
  assert (Zip3.uhf_data_with_zip3 (d1 ++ r :: d2) zip3_map
          = Zip3.uhf_data_with_zip3 (d1 ++ d2) zip3_map) as E.
  { change (r :: d2) with ([r] ++ d2). rewrite !uhf_data_app. do 2 f_equal.
    unfold Zip3.uhf_data_with_zip3, Frame.merge_inner. cbn.
    apply listed_matches in Hl. now rewrite Hl. }
  split; [exact E|]. unfold Zip3.aggregated_uhf_data. now rewrite E.
Qed.

Lemma merge_inner_fst_unique {A B K : Type} `{EqDecision K}
    (left_on : A -> K) (right_on : B -> K) (l : list A) (r : list B) :
  List.NoDup (List.map right_on r) ->
  List.map fst (Frame.merge_inner left_on right_on l r)
  = List.filter
      (fun a => negb (Nat.eqb (length (Frame.matches left_on right_on a r)) 0))
      l.
Proof.
  intros Hnd. unfold Frame.merge_inner.
  induction l as [|a l IH]; cbn; [reflexivity|].
  rewrite List.map_app, IH.
  pose proof (matches_unique left_on right_on a r Hnd) as Hm.
  destruct (Frame.matches left_on right_on a r) as [|b [|b' bs]];
    cbn in *; try reflexivity. lia.
Qed.

Lemma map_table_codes_NoDup :
  List.NoDup
    (List.map Zip3.map_UHF42
       (List.map Zip3.astype_str Zip3.UHF_TO_ZIP3_MAP_DATA)).
Proof.
  apply NoDup_ListNoDup. refine (bool_decide_unpack _ _).
  vm_compute. exact I.
Qed.

(** X15. The table of the script lists every UHF42 code once, so with it no
    record is duplicated: the joined frame holds each record of [final_df]
    with a listed code exactly once, in the order of [final_df], and no
    other record. *)
Theorem zip3_script_table_no_fan_out (final_df : list Zip3.uhf_row) :
  List.map fst
    (Zip3.uhf_data_with_zip3 final_df Zip3.UHF_TO_ZIP3_MAP_DATA)
  = List.filter (listed Zip3.UHF_TO_ZIP3_MAP_DATA) final_df /\
  (length (Zip3.uhf_data_with_zip3 final_df Zip3.UHF_TO_ZIP3_MAP_DATA)
   <= length final_df)%nat.
Proof.
  assert (List.map fst
            (Zip3.uhf_data_with_zip3 final_df Zip3.UHF_TO_ZIP3_MAP_DATA)
          = List.filter (listed Zip3.UHF_TO_ZIP3_MAP_DATA) final_df) as E.
  { unfold Zip3.uhf_data_with_zip3.
    rewrite merge_inner_fst_unique by apply map_table_codes_NoDup.
    apply filter_ext_in_bool. intros r _.
    destruct (listed Zip3.UHF_TO_ZIP3_MAP_DATA r) eqn:El.
    - destruct (Frame.matches _ _ r _) eqn:Em; [|reflexivity].
      apply listed_matches in Em. congruence.
    - apply listed_matches in El. now rewrite El. }
  split; [exact E|].
  rewrite <- (List.length_map fst), E. apply List.filter_length_le.
Qed.

(** X16. With both caches present [prepare_data] returns the rows of
    [asthma_pd], one for one and in their order; a row carries the
    aggregate whose key is its ZIP3 string, and nulls when the aggregate
    has no such key. *)
Theorem prepare_data_rows (asthma_pd : list Zip3.asthma_row)
    (final_df : list Zip3.uhf_row) (zip3_map : list (Z * Z)) :
  let geo_df := Zip3.geo_df asthma_pd final_df zip3_map in
  let aggregated := Zip3.aggregated_uhf_data final_df zip3_map in
  Zip3.prepare_data Zip3.ASTHMA_PKL Zip3.FINAL_DF_PKL
    (Some asthma_pd) (Some final_df) zip3_map
  = ([Print "--- Preparing Data ---";
      Print (nl +:+ "Data preparation complete.")], inr geo_df) /\
  List.map fst geo_df = asthma_pd /\
  (forall a s, In (a, Some s) geo_df ->
               In s aggregated /\ Zip3.zip3 s = Zip3.asthma_zip3 a) /\
  (forall a, In (a, None) geo_df ->
             forall s, In s aggregated -> Zip3.zip3 s <> Zip3.asthma_zip3 a).
Proof.
  cbn zeta. split; [reflexivity|]. split; [|split].
  - apply merge_left_fst, aggregated_NoDup.
  - intros a s H. apply merge_left_In_Some in H. tauto.
  - intros a H. apply merge_left_In_None in H. tauto.
Qed.

(** X18. When one of the two caches is missing the ZIP3 run stops in
    [prepare_data] with FileNotFoundError, after its first line and before
    anything is drawn. *)
Theorem zip3_main_without_cache
    (qcut_nonfinite : list cell -> nat -> exn + list (option nat))
    (path : string) (asthma_pkl : option (list Zip3.asthma_row))
    (final_pkl : option (list Zip3.uhf_row))
    (geojson : exn + list Zip3.feature) :
  asthma_pkl = None \/ final_pkl = None ->
  let run := Zip3.main qcut_nonfinite path asthma_pkl final_pkl geojson in
  events run = [Print "--- Preparing Data ---"] /\
  exists e, outcome run = inl e /\ kind e = FileNotFoundError.
Proof.
  intros [-> | ->]; cbn zeta.
  - split; [reflexivity|]. eexists. split; reflexivity.
  - destruct asthma_pkl; (split; [reflexivity|]); eexists; split; reflexivity.
Qed.

(** ** Codes with a fractional part *)

Lemma this_Qc_of_Z (z : Z) : this (Qc_of_Z z) = inject_Z z.
Proof.
  unfold Qc_of_Z, Q2Qc. cbn [this].
  apply Qred_identity. cbn. apply Z.gcd_1_r.
Qed.

Lemma int_floor (u : Qc) : (Q2Qc 0 <= u)%Qc -> int u = Qfloor u.
Proof.
  unfold Qcle, int, Qfloor. destruct u as [[n d] Hc]. cbn.
  unfold Qle. cbn. change (Qnum (Qred 0)) with 0. intros Hn.
  apply Z.quot_div_nonneg; lia.
Qed.

Lemma int_integer_part (u : Qc) (z : Z) :
  0 <= z -> (Qc_of_Z z <= u)%Qc -> (u < Qc_of_Z (z + 1))%Qc -> int u = z.
Proof.
  unfold Qcle, Qclt. rewrite !this_Qc_of_Z. intros Hz Hle Hlt.
  rewrite int_floor.
  - apply Z.le_antisymm.
    + apply Z.lt_succ_r. rewrite (Zlt_Qlt (Qfloor u) (Z.succ z)).
      eapply Qle_lt_trans; [apply Qfloor_le|exact Hlt].
    + rewrite <- (Qfloor_Z z). now apply Qfloor_resp_le.
  - unfold Qcle. change (this (Q2Qc 0)) with (inject_Z 0).
    apply Qle_trans with (inject_Z z); [|exact Hle].
    rewrite <- Zle_Qle. exact Hz.
Qed.

(** X5. The borough of a code only depends on its integer part: a
    non-negative code with a fractional part is treated as the integer
    below it, so 107.5 is a Bronx code although it lies outside 101-107. *)
Theorem get_borough_truncates (u : Qc) (z : Z) :
  0 <= z -> (Qc_of_Z z <= u)%Qc -> (u < Qc_of_Z (z + 1))%Qc ->
  Borough.get_borough_from_uhf u
  = Borough.get_borough_from_uhf (Qc_of_Z z).
Proof.
  intros Hz Hle Hlt. unfold Borough.get_borough_from_uhf.
  now rewrite (int_integer_part u z Hz Hle Hlt), int_of_Z.
Qed.

(** ** Null metrics in the borough frame *)

(** X4. In the frame the borough run draws, a polygon has a null mean
    exactly when no row of the summary carries its name; a matched polygon
    always has both means. *)
Theorem borough_null_mean_iff_unmatched (df : list Borough.csv_row)
    (boroughs : list Borough.feature) (f : Borough.feature)
    (o : option Borough.summary) :
  In (f, o) (borough_frame df boroughs) ->
  (isna (Borough.metric Borough.NO2_avg (f, o)) = true <-> o = None) /\
  (isna (Borough.metric Borough.O3_avg (f, o)) = true <-> o = None) /\
  (o = None <->
   forall s, In s (Borough.borough_summary df) ->
             Borough.borough s <> Borough.name f).
Proof.
  intros Hin. unfold borough_frame in Hin. destruct o as [s|]; cbn.
  - apply merge_left_In_Some in Hin as (_ & Hs & Hk).
    destruct (summary_means df s Hs) as (_ & -> & ->). cbn.
    repeat split; try discriminate. intros H. destruct (H s Hs Hk).
  - apply merge_left_In_None in Hin as (_ & Hno). now repeat split.
Qed.

(** ** Labels and colours *)

Lemma insert_sorted_In (x y : Qc) (l : list Qc) :
  In y (Qcut.insert_sorted x l) <-> y = x \/ In y l.
Proof.
  induction l as [|a l IH]; cbn; [intuition|].
  destruct (Qc_ltb a x); cbn; rewrite ?IH; intuition.
Qed.

Lemma sort_values_In (y : Qc) (l : list Qc) :
  In y (Qcut.sort_values l) <-> In y l.
Proof.
  unfold Qcut.sort_values. induction l as [|a l IH]; cbn; [reflexivity|].
  rewrite insert_sorted_In, IH. intuition.
Qed.

Lemma insert_sorted_sorted (x : Qc) (l : list Qc) :
  StronglySorted Qcle l -> StronglySorted Qcle (Qcut.insert_sorted x l).
Proof.
  induction 1 as [|a l Hs IH Ha]; cbn; [repeat constructor|].
  rewrite List.Forall_forall in Ha.
  destruct (Qc_ltb a x) eqn:E.
  - apply Qc_ltb_lt in E. constructor; [exact IH|].
    apply List.Forall_forall. intros y Hy.
    apply insert_sorted_In in Hy as [->|Hy];
      [now apply Qclt_le_weak|now apply Ha].
  - assert (x <= a)%Qc as Hxa.
    { apply Qcnot_lt_le. intros H. apply Qc_ltb_lt in H. congruence. }
    constructor; [constructor; [exact Hs|now apply List.Forall_forall]|].
    constructor; [exact Hxa|]. apply List.Forall_forall. intros y Hy.
    apply Qcle_trans with a; [exact Hxa|now apply Ha].
Qed.

Lemma sort_values_sorted (l : list Qc) :
  StronglySorted Qcle (Qcut.sort_values l).
Proof.
  unfold Qcut.sort_values. induction l; cbn;
    [constructor|now apply insert_sorted_sorted].
Qed.

Lemma sorted_first (s : list Qc) (d v : Qc) :
  StronglySorted Qcle s -> In v s -> (nth 0 s d <= v)%Qc.
Proof.
  intros Hs Hv. destruct Hs as [|a s Hs Ha]; [destruct Hv|]. cbn.
  destruct Hv as [->|Hv]; [apply Qcle_refl|].
  rewrite List.Forall_forall in Ha. now apply Ha.
Qed.

Lemma sorted_last (s : list Qc) (d v : Qc) :
  StronglySorted Qcle s -> In v s -> (v <= nth (length s - 1) s d)%Qc.
Proof.
  intros Hs. revert v.
  induction Hs as [|a s Hs IH Ha]; intros v Hv; [destruct Hv|].
  rewrite List.Forall_forall in Ha.
  destruct s as [|b s].
  - destruct Hv as [->|[]]. apply Qcle_refl.
  - replace (length (a :: b :: s) - 1)%nat with (S (length (b :: s) - 1))
      by (cbn [length]; lia).
    cbn [nth].
    destruct Hv as [->|Hv]; [|now apply IH].
    apply Qcle_trans with b; [apply Ha; now left|apply IH; now left].
Qed.

Lemma Qc_of_nat_neq_0 (n : nat) : n <> 0%nat -> Qc_of_nat n <> Q2Qc 0.
Proof.
  intros Hn E. apply (f_equal this) in E. unfold Qc_of_nat in E.
  rewrite this_Qc_of_Z in E. injection E as E. lia.
Qed.

Lemma floor_Qc_of_nat (n : nat) : Qcut.floor (Qc_of_nat n) = Z.of_nat n.
Proof.
  unfold Qcut.floor, Qc_of_nat. rewrite this_Qc_of_Z. apply Qfloor_Z.
Qed.

(** The lowest edge is the smallest value, the highest edge the largest. *)
Lemma quantile_first (s : list Qc) (q : nat) :
  Qcut.quantile s (Qc_of_nat 0 / Qc_of_nat q)%Qc = nth 0 s (Q2Qc 0).
Proof.
  unfold Qcut.quantile.
  replace (Qc_of_nat 0 / Qc_of_nat q)%Qc with (Qc_of_nat 0)
    by (unfold Qcdiv; now rewrite Qcmult_0_l).
  replace (Qc_of_nat (length s - 1) * Qc_of_nat 0)%Qc with (Qc_of_nat 0)
    by now rewrite Qcmult_0_r.
  rewrite floor_Qc_of_nat. cbn [Z.of_nat Z.to_nat]. cbn zeta.
  unfold Qcminus at 2. rewrite Qcplus_opp_r, Qcmult_0_r.
  apply Qcplus_0_r.
Qed.

Lemma quantile_last (s : list Qc) (q : nat) :
  q <> 0%nat ->
  Qcut.quantile s (Qc_of_nat q / Qc_of_nat q)%Qc
  = nth (length s - 1) s (Q2Qc 0).
Proof.
  intros Hq. unfold Qcut.quantile.
  replace (Qc_of_nat q / Qc_of_nat q)%Qc with (Q2Qc 1)
    by (unfold Qcdiv; now rewrite Qcmult_inv_r by now apply Qc_of_nat_neq_0).
  rewrite Qcmult_1_r, floor_Qc_of_nat, Nat2Z.id. cbn zeta.
  replace (Nat.min (length s - 1 + 1) (length s - 1)) with (length s - 1)%nat
    by lia.
  unfold Qcminus at 2. rewrite Qcplus_opp_r, Qcmult_0_r.
  apply Qcplus_0_r.
Qed.

Lemma filter_length_pos {A} (p : A -> bool) (l : list A) (a : A) :
  In a l -> p a = true -> (1 <= length (List.filter p l))%nat.
Proof.
  intros Ha Hp.
  assert (In a (List.filter p l)) as H by now apply List.filter_In.
  destruct (List.filter p l); [destruct H|cbn; lia].
Qed.

Lemma filter_length_lt {A} (p : A -> bool) (l : list A) (a : A) :
  In a l -> p a = false -> (length (List.filter p l) < length l)%nat.
Proof.
  induction l as [|b l IH]; cbn; [intros []|].
  intros [->|Ha] Hp.
  - rewrite Hp. pose proof (List.filter_length_le p l). lia.
  - specialize (IH Ha Hp). destruct (p b); cbn; lia.
Qed.

Lemma edges_hd (x : list Qc) (q : nat) :
  hd (Q2Qc 0) (Qcut.edges x q) = nth 0 (Qcut.sort_values x) (Q2Qc 0).
Proof.
  unfold Qcut.edges. rewrite Nat.add_1_r. cbn [seq List.map hd].
  apply quantile_first.
Qed.

Lemma edges_top (x : list Qc) (q : nat) :
  q <> 0%nat ->
  In (nth (length (Qcut.sort_values x) - 1) (Qcut.sort_values x) (Q2Qc 0))
     (Qcut.edges x q).
Proof.
  intros Hq. unfold Qcut.edges. apply List.in_map_iff. exists q.
  split; [now apply quantile_last|]. apply List.in_seq. lia.
Qed.

Lemma edges_hd_In (x : list Qc) (q : nat) :
  In (hd (Q2Qc 0) (Qcut.edges x q)) (Qcut.edges x q).
Proof.
  unfold Qcut.edges. rewrite Nat.add_1_r. cbn [seq List.map hd]. now left.
Qed.

(** A value of the column gets one of the labels 0 .. q-1. *)
Lemma label_in_range (x : list Qc) (q : nat) (v : Qc) :
  (1 <= q)%nat -> In v x ->
  exists i, Qcut.label (Qcut.edges x q) v = Some i /\ (i < q)%nat.
Proof.
  intros Hq Hv. set (bins := Qcut.edges x q).
  assert (length bins = (q + 1)%nat) as Hlen by apply edges_length.
  assert (In v (Qcut.sort_values x)) as Hs by now apply sort_values_In.
  unfold Qcut.label, Qcut.bin_id. fold bins.
  destruct (Qc_eqb v (hd (Q2Qc 0) bins)) eqn:E.
  - rewrite Hlen.
    replace (1 =? q + 1)%nat with false by (symmetry; apply Nat.eqb_neq; lia).
    cbn. exists 0%nat. split; [reflexivity|lia].
  - set (i := length (List.filter (fun b => Qc_ltb b v) bins)).
    assert (1 <= i)%nat as Hlo.
    { apply filter_length_pos with (hd (Q2Qc 0) bins);
        [apply edges_hd_In|].
      apply Qc_ltb_lt. unfold bins. rewrite edges_hd.
      destruct (Qcle_lt_or_eq _ _
                  (sorted_first _ (Q2Qc 0) v (sort_values_sorted x) Hs))
        as [Hlt|Heq]; [exact Hlt|].
      exfalso. rewrite <- edges_hd with (q := q) in Heq. fold bins in Heq.
      rewrite <- Heq in E.
      assert (Qc_eqb (hd (Q2Qc 0) bins) (hd (Q2Qc 0) bins) = true)
        by now apply Qc_eqb_eq.
      congruence. }
    assert (i < length bins)%nat as Hhi.
    { eapply filter_length_lt; [apply edges_top; lia|].
      apply not_true_is_false. intros H. apply Qc_ltb_lt in H.
      apply (Qclt_not_le _ _ H).
      apply sorted_last; [apply sort_values_sorted|exact Hs]. }
    replace (i =? 0)%nat with false by (symmetry; apply Nat.eqb_neq; lia).
    replace (i =? length bins)%nat with false
      by (symmetry; apply Nat.eqb_neq; lia).
    cbn. exists (i - 1)%nat. split; [reflexivity|lia].
Qed.

(** A classification that succeeds labels every value of the column. *)
Lemma qcut_finite_labels (x : list Qc) (q : nat) (labels : list (option nat)) :
  (1 <= q)%nat -> Qcut.qcut_finite x q = inr labels ->
  length labels = length x /\
  forall l, In l labels -> exists i, l = Some i /\ (i < q)%nat.
Proof.
  intros Hq. unfold Qcut.qcut_finite, Qcut.drop_duplicates.
  pose proof (edges_length x q) as Hlen.
  destruct ((length (Qcut.unique (Qcut.edges x q))
             <? length (Qcut.edges x q))%nat
            && negb (length (Qcut.edges x q) =? 2)%nat) eqn:Hd.
  - apply andb_true_iff in Hd as [Hlt _]. apply Nat.ltb_lt in Hlt.
    replace (q =? _)%nat with false by (symmetry; apply Nat.eqb_neq; lia).
    discriminate.
  - rewrite Hlen.
    replace (q =? q + 1 - 1)%nat with true
      by (symmetry; apply Nat.eqb_eq; lia).
    intros [= <-]. split; [apply List.length_map|].
    intros l Hl. apply List.in_map_iff in Hl as (v & <- & Hv).
    now apply label_in_range.
Qed.

Lemma qcut_labels qn (col : list cell) (q : nat) (labels : list (option nat)) :
  (1 <= q)%nat -> all_finite col = true ->
  Qcut.qcut qn col q = inr labels ->
  length labels = length col /\
  forall l, In l labels -> exists i, l = Some i /\ (i < q)%nat.
Proof.
  intros Hq Hf. unfold all_finite in Hf. unfold Qcut.qcut.
  destruct (Qcut.finite_values col) as [x|] eqn:E; [|discriminate].
  intros Hc. destruct (qcut_finite_labels x q labels Hq Hc) as [Hl Hr].
  split; [|exact Hr]. rewrite Hl. clear - E. revert x E.
  induction col as [|c col IH]; cbn; intros x E.
  - now injection E as <-.
  - destruct c; try discriminate.
    destruct (Qcut.finite_values col) as [vs|]; [|discriminate].
    injection E as <-. cbn. f_equal. now apply IH.
Qed.

Section Fills.
Context {R : Type}.
Variable column : string -> option (R -> cell).
Variable n_quantiles : nat.
Variable colors : gmap string string.

Lemma labels_have_colors (q1 q2 : list (option nat)) :
  covers n_quantiles colors ->
  (forall l, In l q1 -> exists i, l = Some i /\ (i < n_quantiles)%nat) ->
  (forall l, In l q2 -> exists i, l = Some i /\ (i < n_quantiles)%nat) ->
  forallb Render.has_color
    (List.map (fun c => colors !! c) (Render.bivariate_class q1 q2)) = true.
Proof.
  intros Hcov B1 B2. apply forallb_forall. intros fill Hf.
  apply List.in_map_iff in Hf as (c & <- & Hc).
  unfold Render.bivariate_class in Hc.
  apply List.in_map_iff in Hc as ([a b] & <- & Hab).
  destruct (B1 a (List.in_combine_l _ _ _ _ Hab)) as (i & -> & Hi).
  destruct (B2 b (List.in_combine_r _ _ _ _ Hab)) as (j & -> & Hj).
  destruct (Hcov i j Hi Hj) as [x Hx]. unfold Render.has_color.
  now rewrite Hx.
Qed.


Lemma bivariate_returns
    (qn qn' : list cell -> nat -> exn + list (option nat))
    (gdf : list R) (v1 v2 l1 l2 : string)
    (title output_path : string) (c1 c2 : R -> cell) :
  (1 <= n_quantiles)%nat -> covers n_quantiles colors ->
  column v1 = Some c1 -> column v2 = Some c2 ->
  (forall r, In r gdf ->
             no_infinity (c1 r) = true /\ no_infinity (c2 r) = true) ->
  let plot := Render.plot_bivariate_map column n_quantiles qn
                gdf v1 v2 l1 l2 colors title output_path in
  outcome plot = inr tt /\
  plot = Render.plot_bivariate_map column n_quantiles qn'
           gdf v1 v2 l1 l2 colors title output_path /\
  (events plot = [start_notice l1 l2; no_data_notice title] \/
   events plot = [start_notice l1 l2; skip_notice title Qcut.labels_error] \/
   exists fills,
     events plot = [start_notice l1 l2; Draw fills; SaveFig output_path;
                    Print ("Saved map to " +:+ output_path)]).
Proof.
  intros Hn Hcov H1 H2 Hinf. cbn zeta. unfold Render.plot_bivariate_map.
  rewrite H1, H2.
  destruct (Render.dropna c1 c2 gdf) as [|r rows] eqn:Hrows.
  { cbn. repeat split. now left. }
  assert (all_finite (List.map c1 (r :: rows)) = true) as F1.
  { rewrite <- Hrows. apply dropna_all_finite; [now left|].
    intros x Hx. now apply Hinf. }
  assert (all_finite (List.map c2 (r :: rows)) = true) as F2.
  { rewrite <- Hrows. apply dropna_all_finite; [now right|].
    intros x Hx. now apply Hinf. }
  unfold Render.classify.
  destruct (qcut_finite_column qn qn' _ n_quantiles F1) as [<- Hq1].
  destruct (qcut_finite_column qn qn' _ n_quantiles F2) as [<- Hq2].
  destruct Hq1 as [-> | [q1 E1]].
  { cbn. repeat split. right. now left. }
  rewrite E1.
  destruct Hq2 as [-> | [q2 E2]].
  { cbn. repeat split. right. now left. }
  rewrite E2.
  destruct (qcut_labels qn _ _ _ Hn F1 E1) as [_ B1].
  destruct (qcut_labels qn _ _ _ Hn F2 E2) as [_ B2].
  cbn zeta. rewrite (labels_have_colors q1 q2 Hcov B1 B2).
  cbn. repeat split. right. right. eexists. reflexivity.
Qed.
End Fills.

Lemma borough_colors_cover :
  covers Borough.n_quantiles Borough.bivariate_colors.
Proof.
  intros i j Hi Hj. unfold Borough.n_quantiles in *.
  destruct i as [|[|i]]; try lia; destruct j as [|[|j]]; try lia;
    vm_compute; eauto.
Qed.


(** X11. When the colour table has an entry for every pair of labels, the
    bivariate renderer does not raise on two existing columns without
    infinity, whatever the data: it draws the map or prints one of its two
    skip notices.  Its result does not depend on how [pd.qcut] treats
    infinities. *)
Theorem plot_bivariate_map_returns {R : Type}
    (column : string -> option (R -> cell)) (n_quantiles : nat)
    (qn qn' : list cell -> nat -> exn + list (option nat))
    (gdf : list R) (v1 v2 l1 l2 : string) (colors : gmap string string)
    (title output_path : string) (c1 c2 : R -> cell) :
  (1 <= n_quantiles)%nat -> covers n_quantiles colors ->
  column v1 = Some c1 -> column v2 = Some c2 ->
  (forall r, In r gdf ->
             no_infinity (c1 r) = true /\ no_infinity (c2 r) = true) ->
  let plot := Render.plot_bivariate_map column n_quantiles qn
                gdf v1 v2 l1 l2 colors title output_path in
  outcome plot = inr tt /\
  plot = Render.plot_bivariate_map column n_quantiles qn'
           gdf v1 v2 l1 l2 colors title output_path /\
  (events plot = [start_notice l1 l2; no_data_notice title] \/
   events plot = [start_notice l1 l2; skip_notice title Qcut.labels_error] \/
   exists fills,
     events plot = [start_notice l1 l2; Draw fills; SaveFig output_path;
                    Print ("Saved map to " +:+ output_path)]).
Proof. apply bivariate_returns. Qed.


(** ** The further properties on sample inputs *)

Lemma borough_means_defined_witness :
  Borough.NO2_avg sample_bronx
  = Num (total (List.map Borough.NO2
                  (Frame.group Borough.Borough (Borough.cleaned sample_csv)
                     (Borough.borough sample_bronx)))
         / Qc_of_nat (length
                        (Frame.group Borough.Borough
                           (Borough.cleaned sample_csv)
                           (Borough.borough sample_bronx))))%Qc.
Proof.
  exact (proj1 (proj2 (borough_means_defined sample_csv sample_bronx
                         sample_bronx_In))).
Defined.

Lemma varied_gdf_no_infinity (r : Borough.merged_row) :
  In r varied_gdf ->
  no_infinity (Borough.metric Borough.asthma_rate r) = true /\
  no_infinity (Borough.metric Borough.NO2_avg r) = true.
Proof.
  intros Hr. vm_compute in Hr.
  repeat (destruct Hr as [<-|Hr]; [split; reflexivity|]). destruct Hr.
Qed.

Lemma plot_bivariate_map_returns_witness :
  outcome (Borough.plot_bivariate_map qcut_nonfinite_fails varied_gdf
             "asthma_rate" "NO2_avg" "Asthma Rate" "NO2"
             Borough.bivariate_colors
             "Bivariate Map: Asthma Rate vs. NO2 Levels"
             "output/map_borough_bivariate_asthma_no2.png") = inr tt.
Proof.
  apply (plot_bivariate_map_returns Borough.column Borough.n_quantiles
           qcut_nonfinite_fails qcut_nonfinite_fails varied_gdf
           "asthma_rate" "NO2_avg" "Asthma Rate" "NO2"
           Borough.bivariate_colors
           "Bivariate Map: Asthma Rate vs. NO2 Levels"
           "output/map_borough_bivariate_asthma_no2.png"
           (Borough.metric Borough.asthma_rate)
           (Borough.metric Borough.NO2_avg));
    [unfold Borough.n_quantiles; lia|exact borough_colors_cover
    |reflexivity|reflexivity|exact varied_gdf_no_infinity].
Defined.

Lemma zip3_unlisted_code_dropped_witness :
  Zip3.aggregated_uhf_data ([] ++ unlisted_record :: sample_final_df)
    Zip3.UHF_TO_ZIP3_MAP_DATA
  = Zip3.aggregated_uhf_data ([] ++ sample_final_df)
      Zip3.UHF_TO_ZIP3_MAP_DATA.
Proof.
  exact (proj2 (zip3_unlisted_code_dropped [] sample_final_df
                  unlisted_record Zip3.UHF_TO_ZIP3_MAP_DATA eq_refl)).
Defined.

Lemma zip3_main_without_cache_witness :
  events (Zip3.main qcut_nonfinite_fails "/srv" None (Some sample_final_df)
            (inr [sample_zcta]))
  = [Print "--- Preparing Data ---"].
Proof.
  exact (proj1 (zip3_main_without_cache qcut_nonfinite_fails "/srv" None
                  (Some sample_final_df) (inr [sample_zcta])
                  (or_introl eq_refl))).
Defined.

Lemma get_borough_truncates_witness :
  Borough.get_borough_from_uhf code_107_5
  = Borough.get_borough_from_uhf (Qc_of_Z 107).
Proof.
  apply (get_borough_truncates code_107_5 107).
  - lia.
  - unfold Qcle. vm_compute. discriminate.
  - unfold Qclt. vm_compute. reflexivity.
Defined.

Lemma borough_null_mean_iff_unmatched_witness :
  isna (Borough.metric Borough.NO2_avg
          ({| Borough.name := "Bronx"; Borough.geometry := [] |}, None))
  = true <-> @None Borough.summary = None.
Proof.
  apply (borough_null_mean_iff_unmatched [csv 999 7 1 1 None] five_boroughs
           {| Borough.name := "Bronx"; Borough.geometry := [] |} None).
  vm_compute. left. reflexivity.
Defined.


(** ** Constant columns *)

Lemma Qc_of_nat_nonneg (n : nat) : (Q2Qc 0 <= Qc_of_nat n)%Qc.
Proof.
  unfold Qcle, Qc_of_nat. rewrite this_Qc_of_Z.
  change (this (Q2Qc 0)) with (inject_Z 0). rewrite <- Zle_Qle. lia.
Qed.

Lemma Qc_of_nat_le (i q : nat) :
  (i <= q)%nat -> (Qc_of_nat i <= Qc_of_nat q)%Qc.
Proof.
  intros H. unfold Qcle, Qc_of_nat. rewrite !this_Qc_of_Z, <- Zle_Qle. lia.
Qed.

Lemma Qcinv_nonneg (x : Qc) : (Q2Qc 0 <= x)%Qc -> (Q2Qc 0 <= / x)%Qc.
Proof.
  unfold Qcle, Qcinv, Q2Qc. cbn [this]. intros H.
  rewrite !Qred_correct. rewrite Qred_correct in H.
  now apply Qinv_le_0_compat.
Qed.

(** A quantile position lies between the first and the last row. *)
Lemma position_bound (n i q : nat) :
  (i <= q)%nat -> q <> 0%nat ->
  (Z.to_nat (Qcut.floor (Qc_of_nat n * (Qc_of_nat i / Qc_of_nat q))%Qc)
   <= n)%nat.
Proof.
  intros Hi Hq.
  assert (Qc_of_nat n * (Qc_of_nat i / Qc_of_nat q) <= Qc_of_nat n)%Qc as H.
  { rewrite <- (Qcmult_1_r (Qc_of_nat n)) at 2.
    rewrite !(Qcmult_comm (Qc_of_nat n)).
    apply Qcmult_le_compat_r; [|apply Qc_of_nat_nonneg].
    rewrite <- (Qcmult_inv_r (Qc_of_nat q)) by now apply Qc_of_nat_neq_0.
    unfold Qcdiv. apply Qcmult_le_compat_r; [now apply Qc_of_nat_le|].
    apply Qcinv_nonneg, Qc_of_nat_nonneg. }
  apply Qfloor_resp_le in H. fold (Qcut.floor (Qc_of_nat n)) in H.
  rewrite floor_Qc_of_nat in H. unfold Qcut.floor. lia.
Qed.

Lemma quantile_constant (s : list Qc) (v : Qc) (i q : nat) :
  s <> [] -> (forall y, In y s -> y = v) ->
  (i <= q)%nat -> q <> 0%nat ->
  Qcut.quantile s (Qc_of_nat i / Qc_of_nat q)%Qc = v.
Proof.
  intros Hs Hall Hi Hq. unfold Qcut.quantile. cbn zeta.
  assert (1 <= length s)%nat as Hn
    by (destruct s; [contradiction|cbn; lia]).
  pose proof (position_bound (length s - 1) i q Hi Hq) as Hlo.
  set (lo := Z.to_nat _) in *.
  rewrite (Hall (nth lo s (Q2Qc 0))) by (apply nth_In; lia).
  rewrite (Hall (nth (Nat.min (lo + 1) (length s - 1)) s (Q2Qc 0)))
    by (apply nth_In; lia).
  unfold Qcminus at 1. rewrite Qcplus_opp_r, Qcmult_0_l.
  apply Qcplus_0_r.
Qed.

Lemma unique_constant (l : list Qc) (v : Qc) :
  (forall y, In y l -> y = v) -> (length (Qcut.unique l) <= 1)%nat.
Proof.
  intros Hall. destruct l as [|a l]; cbn; [lia|].
  assert (List.filter (fun y => negb (Qc_eqb y a)) (Qcut.unique l) = [])
    as ->; [|cbn; lia].
  assert (forall y, In y (Qcut.unique l) -> y = a) as Hu.
  { assert (forall (m : list Qc) y, In y (Qcut.unique m) -> In y m) as Hsub.
    { induction m as [|b m IHm]; cbn; [tauto|]. intros y [->|Hy];
        [now left|]. right. apply IHm.
      now apply List.filter_In in Hy as [Hy _]. }
    intros y Hy. rewrite (Hall y), (Hall a); auto; [now left|].
    right. now apply Hsub. }
  induction (Qcut.unique l) as [|b m IHm]; cbn; [reflexivity|].
  rewrite (Hu b) by now left.
  replace (Qc_eqb a a) with true by (symmetry; now apply Qc_eqb_eq).
  cbn. apply IHm. intros y Hy. apply Hu. now right.
Qed.

Lemma constant_column_duplicates (x : list Qc) (v : Qc) (q : nat) :
  x <> [] -> (forall y, In y x -> y = v) -> (1 <= q)%nat ->
  has_duplicates (Qcut.edges x q) = true.
Proof.
  intros Hx Hall Hq. unfold has_duplicates. apply Nat.ltb_lt.
  rewrite edges_length.
  assert (length (Qcut.unique (Qcut.edges x q)) <= 1)%nat; [|lia].
  apply unique_constant with v. intros y Hy. unfold Qcut.edges in Hy.
  apply List.in_map_iff in Hy as (i & <- & Hi). apply List.in_seq in Hi.
  apply quantile_constant; try lia.
  - destruct x as [|a x]; [contradiction|]. intros E.
    assert (In a (Qcut.sort_values (a :: x))) as H
      by (apply sort_values_In; now left).
    rewrite E in H. destruct H.
  - intros z Hz. apply Hall. now apply sort_values_In.
Qed.

Lemma finite_values_constant {A} (c : A -> cell) (rows : list A) (v : Qc) :
  (forall r, In r rows -> c r = Num v) ->
  Qcut.finite_values (List.map c rows) = Some (List.map (fun _ => v) rows).
Proof.
  induction rows as [|r rows IH]; cbn; [reflexivity|]. intros H.
  rewrite (H r (or_introl eq_refl)), IH; [reflexivity|].
  intros r' Hr'. apply H. now right.
Qed.

(** X12. A first metric that has the same value on every row with both
    metrics (in particular a frame with a single such row) never gets a
    bivariate map: with two or more quantiles all edges coincide, the
    classification raises ValueError and the map is skipped. *)
Theorem constant_column_skips_the_map {R : Type}
    (column : string -> option (R -> cell)) (n_quantiles : nat)
    (qcut_nonfinite : list cell -> nat -> exn + list (option nat))
    (gdf : list R) (v1 v2 l1 l2 : string) (colors : gmap string string)
    (title output_path : string) (c1 c2 : R -> cell) (v : Qc) :
  column v1 = Some c1 -> column v2 = Some c2 ->
  (2 <= n_quantiles)%nat ->
  Render.dropna c1 c2 gdf <> [] ->
  (forall r, In r (Render.dropna c1 c2 gdf) -> c1 r = Num v) ->
  Render.plot_bivariate_map column n_quantiles qcut_nonfinite gdf
    v1 v2 l1 l2 colors title output_path
  = ([start_notice l1 l2; skip_notice title Qcut.labels_error], inr tt).
Proof.
  intros H1 H2 Hn Hrows Hconst.
  apply plot_bivariate_map_value_error with c1 c2;
    [exact H1|exact H2|exact Hrows| |reflexivity].
  unfold Render.classify. rewrite qcut_duplicate_edges; [reflexivity|lia|].
  unfold duplicate_edges.
  rewrite (finite_values_constant c1 _ v Hconst).
  apply constant_column_duplicates with v; [| |lia].
  - destruct (Render.dropna c1 c2 gdf); [contradiction|discriminate].
  - intros y Hy. now apply List.in_map_iff in Hy as (r & <- & _).
Qed.

Lemma constant_column_skips_the_map_witness :
  Borough.plot_bivariate_map qcut_nonfinite_fails single_gdf
    "asthma_rate" "NO2_avg" "Asthma Rate" "NO2" Borough.bivariate_colors
    "Bivariate Map: Asthma Rate vs. NO2 Levels"
    "output/map_borough_bivariate_asthma_no2.png"
  = ([start_notice "Asthma Rate" "NO2";
      skip_notice "Bivariate Map: Asthma Rate vs. NO2 Levels"
        Qcut.labels_error],
     inr tt).
Proof.
  apply (constant_column_skips_the_map Borough.column Borough.n_quantiles
           qcut_nonfinite_fails single_gdf "asthma_rate" "NO2_avg"
           "Asthma Rate" "NO2" Borough.bivariate_colors
           "Bivariate Map: Asthma Rate vs. NO2 Levels"
           "output/map_borough_bivariate_asthma_no2.png"
           (Borough.metric Borough.asthma_rate)
           (Borough.metric Borough.NO2_avg) single_rate).
  - reflexivity.
  - reflexivity.
  - unfold Borough.n_quantiles. lia.
  - vm_compute. discriminate.
  - intros r Hr. vm_compute in Hr. destruct Hr as [<-|[]].
    vm_compute. reflexivity.
Defined.
